(** * PPSSPP software GPU: the transform unit and the thread pool

    A shallow embedding of [GPU/Software/TransformUnit.cpp] and of
    [ext/native/thread/threadpool.cpp].

    Machine integers are values of [Z] with every conversion and wrap-around
    written out.  [float] is IEEE binary32, built on the Standard Library's
    [SpecFloat] at precision 24.  The calls [SubmitPrimitive] makes on its
    collaborators (vertex decoder and reader, lighting, clipper) are recorded
    in a trace of events, threaded through a small state monad together with
    the reader's cursor. *)

From Stdlib Require Import ZArith List Bool Lia.
From Stdlib Require Import Floats.SpecFloat.
Import ListNotations.
Open Scope Z_scope.

(** ** Fixed-width integers *)

Module Int.

Definition to_u16 (z : Z) : Z := z mod 2 ^ 16.
Definition to_u32 (z : Z) : Z := z mod 2 ^ 32.

Definition INT_MIN : Z := - 2 ^ 31.
Definition INT_MAX : Z := 2 ^ 31 - 1.

(** Conversion to [int]: the value modulo 2^32 taken in [INT_MIN, INT_MAX]. *)
Definition to_int (z : Z) : Z := (z + 2 ^ 31) mod 2 ^ 32 - 2 ^ 31.

Definition in_int (z : Z) : Prop := INT_MIN <= z <= INT_MAX.

End Int.

(** ** binary32 floating point *)

Module F32.

Definition float : Type := spec_float.

Definition prec : Z := 24.
Definition emax : Z := 128.

Definition add : float -> float -> float := SFadd prec emax.
Definition sub : float -> float -> float := SFsub prec emax.
Definition mul : float -> float -> float := SFmul prec emax.
Definition div : float -> float -> float := SFdiv prec emax.
Definition sqrtf : float -> float := SFsqrt prec emax.

(** Conversion of an integer to [float] (round to nearest even). *)
Definition of_Z (z : Z) : float := binary_normalize prec emax z 0 false.

Definition zero : float := S754_zero false.
Definition one : float := of_Z 1.

(** The integer part of a finite float, rounded toward zero. *)
Definition trunc (f : float) : option Z :=
  match f with
  | S754_zero _ => Some 0
  | S754_finite s m e =>
      let a := match e with
               | Zneg p => Z.shiftr (Zpos m) (Zpos p)
               | _ => Z.shiftl (Zpos m) e
               end in
      Some (if s then - a else a)
  | S754_infinity _ | S754_nan => None
  end.

(** Conversion [float -> int].  C++ defines it when the truncated value is an
    [int]; outside of that the model gives what the cvttss2si instruction
    gives, the "integer indefinite" value [INT_MIN]. *)
Definition to_int (f : float) : Z :=
  match trunc f with
  | Some z => if (Int.INT_MIN <=? z) && (z <=? Int.INT_MAX) then z else Int.INT_MIN
  | None => Int.INT_MIN
  end.

(** Conversion [float -> u16]: through [int], keeping the low 16 bits. *)
Definition to_u16 (f : float) : Z := Int.to_u16 (to_int f).

(** The float whose binary32 encoding is the 32-bit word [w]. *)
Definition of_bits (w : Z) : float :=
  let s := Z.testbit w 31 in
  let e := Z.land (Z.shiftr w 23) 255 in
  let m := Z.land w (2 ^ 23 - 1) in
  if e =? 0 then
    match m with
    | Zpos p => S754_finite s p (-149)
    | _ => S754_zero s
    end
  else if e =? 255 then
    (if m =? 0 then S754_infinity s else S754_nan)
  else
    match m + 2 ^ 23 with
    | Zpos p => S754_finite s p (e - 150)
    | _ => S754_nan
    end.

End F32.

Abbreviation float := F32.float.

Declare Scope f32_scope.
Delimit Scope f32_scope with f32.
Infix "+" := F32.add : f32_scope.
Infix "-" := F32.sub : f32_scope.
Infix "*" := F32.mul : f32_scope.
Infix "/" := F32.div : f32_scope.

(** ** Math3D: vectors and matrices *)

Record Vec2 (T : Type) : Type := mkVec2 { v2x : T; v2y : T }.
Record Vec3 (T : Type) : Type := mkVec3 { v3x : T; v3y : T; v3z : T }.
Record Vec4 (T : Type) : Type := mkVec4 { v4x : T; v4y : T; v4z : T; v4w : T }.

Arguments mkVec2 {T} _ _.
Arguments mkVec3 {T} _ _ _.
Arguments mkVec4 {T} _ _ _ _.
Arguments v2x {T} _.
Arguments v2y {T} _.
Arguments v3x {T} _.
Arguments v3y {T} _.
Arguments v3z {T} _.
Arguments v4x {T} _.
Arguments v4y {T} _.
Arguments v4z {T} _.
Arguments v4w {T} _.

(** A matrix is the flat [float] array the GPU state holds. *)
Definition Matrix : Type := list float.

Definition at_ (m : Matrix) (i : nat) : float := nth i m F32.zero.

Module Math3D.

Definition vec3_add (a b : Vec3 float) : Vec3 float :=
  mkVec3 (v3x a + v3x b)%f32 (v3y a + v3y b)%f32 (v3z a + v3z b)%f32.

Definition vec3_sub (a b : Vec3 float) : Vec3 float :=
  mkVec3 (v3x a - v3x b)%f32 (v3y a - v3y b)%f32 (v3z a - v3z b)%f32.

Definition vec3_div (a : Vec3 float) (f : float) : Vec3 float :=
  mkVec3 (v3x a / f)%f32 (v3y a / f)%f32 (v3z a / f)%f32.

Definition Length (a : Vec3 float) : float :=
  F32.sqrtf (v3x a * v3x a + v3y a * v3y a + v3z a * v3z a)%f32.

(** Modelled from the spec: [Mat3x3<float>::operator*] of Math3D.h, which is
    not among the sources.  The matrix is the first nine entries of the flat
    array; the translation of a 4x3 matrix sits in entries 9 to 11, so entry
    [3*j + i] multiplies component [j] of the vector into component [i]. *)
Definition mat3x3_mul (m : Matrix) (v : Vec3 float) : Vec3 float :=
  mkVec3
    (at_ m 0 * v3x v + at_ m 3 * v3y v + at_ m 6 * v3z v)%f32
    (at_ m 1 * v3x v + at_ m 4 * v3y v + at_ m 7 * v3z v)%f32
    (at_ m 2 * v3x v + at_ m 5 * v3y v + at_ m 8 * v3z v)%f32.

(** Modelled from the spec: [Mat4x4<float>::operator*] of Math3D.h, laid out
    as [mat3x3_mul]. *)
Definition mat4x4_mul (m : Matrix) (v : Vec4 float) : Vec4 float :=
  mkVec4
    (at_ m 0 * v4x v + at_ m 4 * v4y v + at_ m 8 * v4z v + at_ m 12 * v4w v)%f32
    (at_ m 1 * v4x v + at_ m 5 * v4y v + at_ m 9 * v4z v + at_ m 13 * v4w v)%f32
    (at_ m 2 * v4x v + at_ m 6 * v4y v + at_ m 10 * v4z v + at_ m 14 * v4w v)%f32
    (at_ m 3 * v4x v + at_ m 7 * v4y v + at_ m 11 * v4z v + at_ m 15 * v4w v)%f32.

End Math3D.

(** ** The GPU state and the coordinate spaces *)

Definition ModelCoords : Type := Vec3 float.
Definition WorldCoords : Type := Vec3 float.
Definition ViewCoords : Type := Vec3 float.
Definition ClipCoords : Type := Vec4 float.

(** Modelled from the spec: the declarations of TransformUnit.h are not among
    the sources.  Screen and drawing coordinates are integer fixed-point
    values; they are taken as unsigned 16-bit fields. *)
Record ScreenCoords : Type := mkScreen { sx : Z; sy : Z; sz : Z }.
Record DrawingCoords : Type := mkDrawing { dx : Z; dy : Z }.

(** The registers of [gstate] that the transform unit reads.  Registers are
    32-bit words.  [isModeClear] and [isModeThrough] are methods of the state
    whose bodies are not among the sources: the snapshot holds their
    results. *)
Record GPUState : Type := mkGPUState {
  worldMatrix : Matrix;
  viewMatrix : Matrix;
  projMatrix : Matrix;
  viewportx1 : Z; viewporty1 : Z; viewportz1 : Z;
  viewportx2 : Z; viewporty2 : Z; viewportz2 : Z;
  offsetx : Z; offsety : Z;
  materialdiffuse : Z;
  materialalpha : Z;
  textureMapEnable : Z;
  isModeClear : bool;
  isModeThrough : bool
}.

(** Modelled from the spec: [getFloat24] of GPUState.h, not among the sources.
    A register holds the upper 24 bits of a binary32 value; the word is
    shifted left by eight and read as a float. *)
Definition getFloat24 (data : Z) : float :=
  F32.of_bits (Int.to_u32 (Z.shiftl data 8)).

(** ** Vertex data, the decoded vertex stream and the collaborators *)

Record VertexData : Type := mkVertexData {
  texturecoords : Vec2 float;
  normal : Vec3 float;
  worldnormal : WorldCoords;
  color0 : Vec4 Z;
  color1 : Vec3 Z;
  worldpos : WorldCoords;
  viewpos : ViewCoords;
  clippos : ClipCoords;
  drawpos : DrawingCoords
}.

Definition set_texturecoords (d : VertexData) (v : Vec2 float) : VertexData :=
  mkVertexData v (normal d) (worldnormal d) (color0 d) (color1 d)
               (worldpos d) (viewpos d) (clippos d) (drawpos d).
Definition set_normal (d : VertexData) (v : Vec3 float) : VertexData :=
  mkVertexData (texturecoords d) v (worldnormal d) (color0 d) (color1 d)
               (worldpos d) (viewpos d) (clippos d) (drawpos d).
Definition set_worldnormal (d : VertexData) (v : WorldCoords) : VertexData :=
  mkVertexData (texturecoords d) (normal d) v (color0 d) (color1 d)
               (worldpos d) (viewpos d) (clippos d) (drawpos d).
Definition set_color0 (d : VertexData) (v : Vec4 Z) : VertexData :=
  mkVertexData (texturecoords d) (normal d) (worldnormal d) v (color1 d)
               (worldpos d) (viewpos d) (clippos d) (drawpos d).
Definition set_color1 (d : VertexData) (v : Vec3 Z) : VertexData :=
  mkVertexData (texturecoords d) (normal d) (worldnormal d) (color0 d) v
               (worldpos d) (viewpos d) (clippos d) (drawpos d).
Definition set_worldpos (d : VertexData) (v : WorldCoords) : VertexData :=
  mkVertexData (texturecoords d) (normal d) (worldnormal d) (color0 d) (color1 d)
               v (viewpos d) (clippos d) (drawpos d).
Definition set_viewpos (d : VertexData) (v : ViewCoords) : VertexData :=
  mkVertexData (texturecoords d) (normal d) (worldnormal d) (color0 d) (color1 d)
               (worldpos d) v (clippos d) (drawpos d).
Definition set_clippos (d : VertexData) (v : ClipCoords) : VertexData :=
  mkVertexData (texturecoords d) (normal d) (worldnormal d) (color0 d) (color1 d)
               (worldpos d) (viewpos d) v (drawpos d).
Definition set_drawpos (d : VertexData) (v : DrawingCoords) : VertexData :=
  mkVertexData (texturecoords d) (normal d) (worldnormal d) (color0 d) (color1 d)
               (worldpos d) (viewpos d) (clippos d) v.

(** The decoded vertex stream as [VertexReader] presents it: which attributes
    the vertex format declares, and the value each accessor yields at a given
    record index.  The decoder and the reader are external to the transform
    unit. *)
Record VertexReader : Type := mkVertexReader {
  hasUV : bool;
  hasNormal : bool;
  hasColor0 : bool;
  hasColor1 : bool;
  pos_at : Z -> Vec3 float;
  uv_at : Z -> Vec2 float;
  nrm_at : Z -> Vec3 float;
  color0_at : Z -> Vec4 float;
  color1_at : Z -> Vec3 float
}.

(** The constants of ge_constants.h that [SubmitPrimitive] compares against;
    the header is not among the sources, so they are taken as given. *)
Record GEConstants : Type := mkGEConstants {
  GE_PRIM_POINTS : Z;
  GE_PRIM_LINES : Z;
  GE_PRIM_TRIANGLES : Z;
  GE_PRIM_RECTANGLES : Z;
  GE_VTYPE_IDX_MASK : Z;
  GE_VTYPE_IDX_8BIT : Z;
  GE_VTYPE_IDX_16BIT : Z
}.

(** The functions [SubmitPrimitive] calls outside of the transform unit.
    [DecodeVerts vertices vertex_type lower upper] stands for the decoder run
    on that index range and the reader built on its output buffer;
    [lighting] for [Lighting::Process], which receives the vertex by
    reference and the state as a global. *)
Record Collaborators : Type := mkCollaborators {
  GetIndexBounds : list Z -> Z -> Z -> Z * Z;
  DecodeVerts : list Z -> Z -> Z -> Z -> VertexReader;
  lighting : GPUState -> VertexData -> VertexData
}.

(** What the collaborators are asked to do, in order. *)
Inductive Event : Type :=
| EvDecodeVerts (lower upper : Z)
| EvGoto (index : Z)
| EvReadPos
| EvReadUV
| EvReadNrm
| EvReadColor0
| EvReadColor1
| EvLightingProcess (vertex : VertexData)
| EvProcessTriangle (data : list VertexData)
| EvProcessQuad (data : list VertexData).

(** The mutable state of a draw call: the reader's cursor and the trace. *)
Record St : Type := mkSt { cursor : Z; trace : list Event }.

Definition M (A : Type) : Type := St -> A * St.

Definition ret {A : Type} (a : A) : M A := fun s => (a, s).

Definition bind {A B : Type} (c : M A) (k : A -> M B) : M B :=
  fun s => let (a, s') := c s in k a s'.

Notation "x <- c ;; k" := (bind c (fun x => k))
  (at level 61, c at next level, right associativity).
Notation "c ;;; k" := (bind c (fun _ => k))
  (at level 61, right associativity).

Definition emit (e : Event) : M unit :=
  fun s => (tt, mkSt (cursor s) (trace s ++ [e])).

(** The outcome of a loop run on a bounded number of iterations. *)
Inductive Run : Type :=
| Returned (s : St)
| OutOfFuel (s : St).

(** Index buffers are raw bytes; 16-bit entries are little-endian.  A read
    past the end of the list gives 0. *)
Definition indices8 (indices : list Z) (k : Z) : Z :=
  nth (Z.to_nat k) indices 0.

Definition indices16 (indices : list Z) (k : Z) : Z :=
  nth (Z.to_nat (2 * k)) indices 0 + 256 * nth (Z.to_nat (2 * k + 1)) indices 0.

(** [data[i] = d] on the three-element array of a group. *)
Fixpoint update {A : Type} (l : list A) (i : nat) (x : A) : list A :=
  match l, i with
  | [], _ => []
  | _ :: t, O => x :: t
  | h :: t, S j => h :: update t j x
  end.

(** ** The transform unit *)

Module TransformUnit.

Section Transform.

Variable gstate : GPUState.

Definition translation (m : Matrix) : Vec3 float :=
  mkVec3 (at_ m 9) (at_ m 10) (at_ m 11).

Definition ModelToWorld (coords : ModelCoords) : WorldCoords :=
  Math3D.vec3_add (Math3D.mat3x3_mul (worldMatrix gstate) coords)
                  (translation (worldMatrix gstate)).

Definition WorldToView (coords : WorldCoords) : ViewCoords :=
  Math3D.vec3_add (Math3D.mat3x3_mul (viewMatrix gstate) coords)
                  (translation (viewMatrix gstate)).

Definition ViewToClip (coords : ViewCoords) : ClipCoords :=
  let coords4 := mkVec4 (v3x coords) (v3y coords) (v3z coords) F32.one in
  Math3D.mat4x4_mul (projMatrix gstate) coords4.

Definition ClipToScreen (coords : ClipCoords) : ScreenCoords :=
  let vpx1 := getFloat24 (viewportx1 gstate) in
  let vpx2 := getFloat24 (viewportx2 gstate) in
  let vpy1 := getFloat24 (viewporty1 gstate) in
  let vpy2 := getFloat24 (viewporty2 gstate) in
  let vpz1 := getFloat24 (viewportz1 gstate) in
  let vpz2 := getFloat24 (viewportz2 gstate) in
  let sixteen := F32.of_Z 16 in
  {| sx := F32.to_u16 ((v4x coords * vpx1 / v4w coords + vpx2) * sixteen)%f32;
     sy := F32.to_u16 ((v4y coords * vpy1 / v4w coords + vpy2) * sixteen)%f32;
     sz := F32.to_u16 ((v4z coords * vpz1 / v4w coords + vpz2) * sixteen)%f32 |}.

(** One component of [ScreenToDrawing]: the coordinate is cast to [u32], the
    register masked to 16 bits, the difference taken in [u32], divided by 16
    and masked to 10 bits, then stored in the 16-bit field. *)
Definition screen_to_drawing1 (coord offset : Z) : Z :=
  let c := Int.to_u32 coord in
  let o := Z.land (Int.to_u32 offset) 0xffff in
  let d := Int.to_u32 (c - o) in
  Int.to_u16 (Z.land (d / 16) 0x3ff).

Definition ScreenToDrawing (coords : ScreenCoords) : DrawingCoords :=
  {| dx := screen_to_drawing1 (sx coords) (offsetx gstate);
     dy := screen_to_drawing1 (sy coords) (offsety gstate) |}.

End Transform.

(** *** SubmitPrimitive *)

Section Submit.

Variable K : GEConstants.
Variable ext : Collaborators.
Variable gstate : GPUState.

(** A default-constructed [VertexData] is left uninitialised: [uninit vtx i]
    is what slot [i] of [data] holds when the group starting at [vtx] is
    begun. *)
Variable uninit : Z -> nat -> VertexData.

Section Draw.

Variable vreader : VertexReader.
Variable indices : option (list Z).
Variable indices_16bit : bool.
Variable prim_type : Z.
Variable vertex_count : Z.
Variable vtcs_per_prim : Z.

Definition Goto (index : Z) : M unit :=
  fun s => (tt, mkSt index (trace s ++ [EvGoto index])).

Definition ReadPos : M (Vec3 float) :=
  fun s => (pos_at vreader (cursor s), mkSt (cursor s) (trace s ++ [EvReadPos])).

Definition ReadUV : M (Vec2 float) :=
  fun s => (uv_at vreader (cursor s), mkSt (cursor s) (trace s ++ [EvReadUV])).

Definition ReadNrm : M (Vec3 float) :=
  fun s => (nrm_at vreader (cursor s), mkSt (cursor s) (trace s ++ [EvReadNrm])).

Definition ReadColor0 : M (Vec4 float) :=
  fun s => (color0_at vreader (cursor s), mkSt (cursor s) (trace s ++ [EvReadColor0])).

Definition ReadColor1 : M (Vec3 float) :=
  fun s => (color1_at vreader (cursor s), mkSt (cursor s) (trace s ++ [EvReadColor1])).

Definition Lighting_Process (d : VertexData) : M VertexData :=
  fun s => (lighting ext gstate d,
            mkSt (cursor s) (trace s ++ [EvLightingProcess d])).

(** A float channel times 255, converted to [int]. *)
Definition scale255 (c : float) : Z := F32.to_int (c * F32.of_Z 255)%f32.

(** The colour synthesised from the material registers. *)
Definition material_color : Vec4 Z :=
  mkVec4 (Z.land (materialdiffuse gstate) 0xFF)
         (Z.land (Z.shiftr (materialdiffuse gstate) 8) 0xFF)
         (Z.land (Z.shiftr (materialdiffuse gstate) 16) 0xFF)
         (Z.land (materialalpha gstate) 0xFF).

(** The test that guards the UV read. *)
Definition reads_uv : bool :=
  negb (isModeClear gstate) && negb (textureMapEnable gstate =? 0) && hasUV vreader.

(** Lines 106 to 109: the record the cursor is moved to, through the index
    buffer when there is one.  [vtx + i] is an [unsigned int]; [Goto] takes an
    [int]. *)
Definition vertex_index (vtx : Z) (i : nat) : Z :=
  let k := Int.to_u32 (vtx + Z.of_nat i) in
  match indices with
  | Some ind => if indices_16bit then indices16 ind k else indices8 ind k
  | None => Int.to_int k
  end.

(** Lines 105 to 138: the cursor is moved to the vertex, then position, UV,
    normal and the two colours are read into [data[i]] (here [d]).  [col] of
    the secondary colour has three entries; the accessor called for it is
    [ReadColor0], of which the first three channels are used. *)
Definition ReadAttributes (vtx : Z) (i : nat) (d : VertexData)
  : M (Vec3 float * VertexData) :=
  Goto (vertex_index vtx i) ;;;
  pos <- ReadPos ;;
  d <- (if reads_uv
        then uv <- ReadUV ;; ret (set_texturecoords d (mkVec2 (v2x uv) (v2y uv)))
        else ret d) ;;
  d <- (if hasNormal vreader
        then nrm <- ReadNrm ;;
             ret (set_normal d (mkVec3 (v3x nrm) (v3y nrm) (v3z nrm)))
        else ret d) ;;
  d <- (if hasColor0 vreader
        then col <- ReadColor0 ;;
             ret (set_color0 d (mkVec4 (scale255 (v4x col)) (scale255 (v4y col))
                                       (scale255 (v4z col)) (scale255 (v4w col))))
        else ret (set_color0 d material_color)) ;;
  d <- (if hasColor1 vreader
        then col <- ReadColor0 ;;
             ret (set_color1 d (mkVec3 (scale255 (v4x col)) (scale255 (v4y col))
                                       (scale255 (v4z col))))
        else ret (set_color1 d (mkVec3 0 0 0))) ;;
  ret (pos, d).

(** Lines 140 to 156: the transform chain and lighting, or the through-mode
    assignment of the position to the drawing coordinate. *)
Definition TransformVertex (pos : Vec3 float) (d : VertexData) : M VertexData :=
  if negb (isModeThrough gstate) then
    let mcoords : ModelCoords := mkVec3 (v3x pos) (v3y pos) (v3z pos) in
    let d := set_worldpos d (ModelToWorld gstate mcoords) in
    let d := set_viewpos d (WorldToView gstate (worldpos d)) in
    let d := set_clippos d (ViewToClip gstate (viewpos d)) in
    let d := set_drawpos d (ScreenToDrawing gstate (ClipToScreen gstate (clippos d))) in
    let d := if hasNormal vreader then
               let wn := Math3D.vec3_sub (ModelToWorld gstate (normal d))
                                         (translation (worldMatrix gstate)) in
               set_worldnormal d (Math3D.vec3_div wn (Math3D.Length wn))
             else d in
    Lighting_Process d
  else
    ret (set_drawpos d (mkDrawing (F32.to_u16 (v3x pos)) (F32.to_u16 (v3y pos)))).

(** The body of the inner loop for slot [i] of the group starting at [vtx]. *)
Definition AssembleVertex (vtx : Z) (i : nat) (d : VertexData) : M VertexData :=
  pd <- ReadAttributes vtx i d ;;
  TransformVertex (fst pd) (snd pd).

(** The inner loop, [n] iterations from slot [i] on. *)
Fixpoint AssembleGroup (vtx : Z) (n : nat) (i : nat) (data : list VertexData)
  : M (list VertexData) :=
  match n with
  | O => ret data
  | S n' =>
      d <- AssembleVertex vtx i (nth i data (uninit vtx i)) ;;
      AssembleGroup vtx n' (S i) (update data i d)
  end.

(** The [switch] on the primitive type that ends the outer loop's body. *)
Definition Dispatch (data : list VertexData) : M unit :=
  if prim_type =? GE_PRIM_TRIANGLES K then emit (EvProcessTriangle data)
  else if prim_type =? GE_PRIM_RECTANGLES K then emit (EvProcessQuad data)
  else ret tt.

(** The outer loop from [vtx] on, for at most [fuel] iterations. *)
Fixpoint PrimLoop (fuel : nat) (vtx : Z) (s : St) : Run :=
  if vtx <? vertex_count then
    match fuel with
    | O => OutOfFuel s
    | S fuel' =>
        let data := [uninit vtx 0%nat; uninit vtx 1%nat; uninit vtx 2%nat] in
        let (data', s1) := AssembleGroup vtx (Z.to_nat vtcs_per_prim) 0 data s in
        let (_, s2) := Dispatch data' s1 in
        PrimLoop fuel' (Int.to_int (vtx + vtcs_per_prim)) s2
    end
  else Returned s.

End Draw.

Definition vertices_per_prim (prim_type : Z) : Z :=
  if prim_type =? GE_PRIM_POINTS K then 1
  else if prim_type =? GE_PRIM_LINES K then 2
  else if prim_type =? GE_PRIM_TRIANGLES K then 3
  else if prim_type =? GE_PRIM_RECTANGLES K then 2
  else 0.

(** The index range handed to the decoder: lines 77 to 85. *)
Definition index_bounds (indices : option (list Z)) (vertex_count vertex_type : Z)
  : Z * Z :=
  let index_lower_bound := 0 in
  let index_upper_bound := Int.to_u16 (Int.to_int (vertex_count - 1)) in
  match indices with
  | Some ind => GetIndexBounds ext ind vertex_count vertex_type
  | None => (index_lower_bound, index_upper_bound)
  end.

Definition SubmitPrimitive (fuel : nat) (vertices : list Z)
    (indices : option (list Z)) (prim_type vertex_count vertex_type : Z) : Run :=
  let indices_16bit :=
    Z.land vertex_type (GE_VTYPE_IDX_MASK K) =? GE_VTYPE_IDX_16BIT K in
  let (lower, upper) := index_bounds indices vertex_count vertex_type in
  let vreader := DecodeVerts ext vertices vertex_type lower upper in
  let s0 := mkSt 0 [EvDecodeVerts lower upper] in
  PrimLoop vreader indices indices_16bit prim_type vertex_count
           (vertices_per_prim prim_type) fuel 0 s0.

End Submit.

End TransformUnit.

(** ** The thread pool *)

Module ThreadPool.

(** A loop worker as the pool's caller sees it: the range of its pending job
    and the two job counters. *)
Record LoopWorkerThread : Type := mkWorker {
  start_ : Z;
  end_ : Z;
  jobsDone : Z;
  jobsTarget : Z
}.

Record ThreadPool : Type := mkPool {
  numThreads_ : Z;
  workersStarted : bool;
  workers : list LoopWorkerThread
}.

(** The calls of [ParallelLoop], in program order: a job handed to worker
    [i], [loop] run by the calling thread, the wait for worker [i]. *)
Inductive Event : Type :=
| EvProcess (i : nat) (start end' : Z)
| EvLoop (lower upper : Z)
| EvWaitForCompletion (i : nat).

(** [ThreadPool::ThreadPool(int numThreads)]. *)
Definition new (numThreads : Z) : ThreadPool :=
  mkPool (if numThreads <=? 0 then 1
          else if numThreads >? 8 then 8
          else numThreads)
         false [].

Definition idle_worker : LoopWorkerThread := mkWorker 0 0 0 0.

Definition StartWorkers (p : ThreadPool) : ThreadPool :=
  if workersStarted p then p
  else mkPool (numThreads_ p) true
              (workers p ++ repeat idle_worker (Z.to_nat (numThreads_ p))).

(** [LoopWorkerThread::Process]: the job slot is filled and one more job is
    targeted. *)
Definition Process (w : LoopWorkerThread) (start end' : Z) : LoopWorkerThread :=
  mkWorker start end' (jobsDone w) (Int.to_int (jobsDone w + 1)).

(** [WaitForCompletion] returns once the worker thread has counted its job
    done. *)
Definition WaitForCompletion (w : LoopWorkerThread) : LoopWorkerThread :=
  if jobsDone w <? jobsTarget w
  then mkWorker (start_ w) (end_ w) (Int.to_int (jobsDone w + 1)) (jobsTarget w)
  else w.

Definition on_worker (p : ThreadPool) (i : nat)
    (f : LoopWorkerThread -> LoopWorkerThread) : ThreadPool :=
  match nth_error (workers p) i with
  | Some w => mkPool (numThreads_ p) (workersStarted p) (update (workers p) i (f w))
  | None => p
  end.

(** The dispatch loop: [n] more workers from worker [i] on, the next chunk
    starting at [s]. *)
Fixpoint dispatch (n i : nat) (chunk s : Z) (p : ThreadPool) (tr : list Event)
  : Z * ThreadPool * list Event :=
  match n with
  | O => (s, p, tr)
  | S n' =>
      let e := Int.to_int (s + chunk) in
      dispatch n' (S i) chunk e
               (on_worker p i (fun w => Process w s e))
               (tr ++ [EvProcess i s e])
  end.

(** The loop that waits for the dispatched workers. *)
Fixpoint wait_all (n i : nat) (p : ThreadPool) (tr : list Event)
  : ThreadPool * list Event :=
  match n with
  | O => (p, tr)
  | S n' =>
      wait_all n' (S i) (on_worker p i WaitForCompletion)
               (tr ++ [EvWaitForCompletion i])
  end.

Definition ParallelLoop (p : ThreadPool) (lower upper : Z)
  : ThreadPool * list Event :=
  let range := Int.to_int (upper - lower) in
  if range >=? numThreads_ p * 2 then
    let p := StartWorkers p in
    let chunk := Z.quot range (numThreads_ p) in
    let n := Z.to_nat (numThreads_ p - 1) in
    let '(s, p, tr) := dispatch n 0 chunk lower p [] in
    wait_all n 0 p (tr ++ [EvLoop s upper])
  else (p, [EvLoop lower upper]).

(** The index ranges on which [loop] is run according to a trace, with the
    thread that runs each: [None] is the calling thread. *)
Fixpoint loop_calls (tr : list Event) : list (option nat * (Z * Z)) :=
  match tr with
  | [] => []
  | EvProcess i s e :: tr' => (Some i, (s, e)) :: loop_calls tr'
  | EvLoop s e :: tr' => (None, (s, e)) :: loop_calls tr'
  | EvWaitForCompletion _ :: tr' => loop_calls tr'
  end.

(** The indices of the half-open range [[s, e)], in order. *)
Definition indices_of (r : Z * Z) : list Z :=
  map (fun k => fst r + Z.of_nat k) (seq 0 (Z.to_nat (snd r - fst r))).

End ThreadPool.

(** ** A loop worker and its thread *)

(** [LoopWorkerThread] as a state machine.  The worker thread holds [mutex]
    from the start of [WorkFunc] to its end, except while it waits on
    [signal]; [Process] and the destructor take [mutex] for their whole
    body.  Between two waits the thread therefore runs as one step with
    respect to them: it finds a job targeted and runs it, or finds [active]
    cleared and leaves.  [jobsDone] is written under [doneMutex] as well,
    which is the lock [WaitForCompletion] reads it under. *)
Module LoopWorker.

Record State : Type := mkState {
  active : bool;
  jobsDone : Z;
  jobsTarget : Z;
  start_ : Z;
  end_ : Z;
  (** [WorkFunc] has not returned. *)
  running : bool
}.

(** The worker as its constructor leaves it, the thread started. *)
Definition created : State := mkState true 0 0 0 0 true.

Inductive Action : Type :=
| Process (start end' : Z)   (** the caller hands over a job *)
| Work                       (** the thread runs the job targeted *)
| Stop                       (** the destructor clears [active] *)
| Exit.                      (** the thread leaves [WorkFunc] *)

(** One step, with the calls of [work_] it makes; [None] when the thread
    cannot take the step from that state. *)
Definition step (a : Action) (s : State) : option (State * list (Z * Z)) :=
  match a with
  | Process start end' =>
      Some (mkState (active s) (jobsDone s) (Int.to_int (jobsDone s + 1))
                    start end' (running s), [])
  | Work =>
      if running s && active s && negb (jobsTarget s <=? jobsDone s)
      then Some (mkState (active s) (Int.to_int (jobsDone s + 1)) (jobsTarget s)
                         (start_ s) (end_ s) (running s),
                 [(start_ s, end_ s)])
      else None
  | Stop =>
      Some (mkState false (jobsDone s) (jobsTarget s) (start_ s) (end_ s)
                    (running s), [])
  | Exit =>
      if running s && negb (active s)
      then Some (mkState (active s) (jobsDone s) (jobsTarget s) (start_ s)
                         (end_ s) false, [])
      else None
  end.

(** A schedule of steps, with the calls of [work_] made along it. *)
Fixpoint run (sched : list Action) (s : State) : option (State * list (Z * Z)) :=
  match sched with
  | [] => Some (s, [])
  | a :: rest =>
      match step a s with
      | None => None
      | Some (s1, ran1) =>
          match run rest s1 with
          | None => None
          | Some (s2, ran2) => Some (s2, ran1 ++ ran2)
          end
      end
  end.

(** [WaitForCompletion] returns from this state: its loop condition
    [jobsDone < jobsTarget] is false. *)
Definition WaitForCompletion_returns (s : State) : bool :=
  negb (jobsDone s <? jobsTarget s).

(** A step of the worker thread, as opposed to one of the caller. *)
Definition of_thread (a : Action) : bool :=
  match a with Work | Exit => true | Process _ _ | Stop => false end.

Definition is_Process (a : Action) : bool :=
  match a with Process _ _ => true | _ => false end.

(** The worker as [ThreadPool] sees it. *)
Definition view (s : State) : ThreadPool.LoopWorkerThread :=
  ThreadPool.mkWorker (start_ s) (end_ s) (jobsDone s) (jobsTarget s).

End LoopWorker.

(** ** Vocabulary of the statements *)

(** The values ge_constants.h gives the constants on the PSP; the statements
    below hold for any values, these are used where a concrete draw call is
    evaluated. *)
Definition psp_constants : GEConstants :=
  mkGEConstants 0 1 3 6 (Z.shiftl 3 11) (Z.shiftl 1 11) (Z.shiftl 2 11).

(** What a slot of the group holds once [SubmitPrimitive] has filled it as
    [v]: [v] itself in through mode, and what [Lighting::Process] made of [v]
    otherwise. *)
Definition lit (ext : Collaborators) (g : GPUState) (v : VertexData) : VertexData :=
  if isModeThrough g then v else lighting ext g v.

Definition is_ReadPos (e : Event) : bool :=
  match e with EvReadPos => true | _ => false end.

Definition is_ReadUV (e : Event) : bool :=
  match e with EvReadUV => true | _ => false end.

Definition is_ReadColor1 (e : Event) : bool :=
  match e with EvReadColor1 => true | _ => false end.

Definition is_Lighting (e : Event) : bool :=
  match e with EvLightingProcess _ => true | _ => false end.

(** A call of [Clipper::ProcessTriangle] or of [Clipper::ProcessQuad]. *)
Definition is_Process (e : Event) : bool :=
  match e with
  | EvProcessTriangle _ | EvProcessQuad _ => true
  | _ => false
  end.

(** An event that calls a consumer calls the one of the primitive type:
    [ProcessTriangle] for triangles, [ProcessQuad] for rectangles. *)
Definition consumer_matches (K : GEConstants) (prim_type : Z) (e : Event) : Prop :=
  match e with
  | EvProcessTriangle _ => prim_type = GE_PRIM_TRIANGLES K
  | EvProcessQuad _ => prim_type = GE_PRIM_RECTANGLES K
  | _ => True
  end.

Definition count (p : Event -> bool) (tr : list Event) : nat :=
  length (filter p tr).

(** The state a run ended in, or was cut off in. *)
Definition state_of (r : Run) : St :=
  match r with Returned s | OutOfFuel s => s end.

(** The number of groups the outer loop goes through: the ceiling of
    [vertex_count / vtcs_per_prim]. *)
Definition groups (vertex_count vtcs_per_prim : Z) : Z :=
  (Z.max 0 vertex_count + vtcs_per_prim - 1) / vtcs_per_prim.

(** A concrete draw call, for evaluating the model: identity matrices, a
    viewport of scale 1 and offset 0, a white primary colour and a black
    secondary colour on every vertex, positions [(10 + index, 20.5, 0)]. *)
Definition f0 : float := F32.zero.
Definition f1 : float := F32.one.
Definition fhalf : float := F32.of_bits 0x3f000000.

Definition identity4x3 : Matrix := [f1; f0; f0; f0; f1; f0; f0; f0; f1; f0; f0; f0].
Definition identity4x4 : Matrix :=
  [f1; f0; f0; f0; f0; f1; f0; f0; f0; f0; f1; f0; f0; f0; f0; f1].

Definition example_state (through : bool) : GPUState :=
  mkGPUState identity4x3 identity4x3 identity4x4
             0x3f8000 0x3f8000 0x3f8000 0 0 0
             16 0x10010 0x332211 0x80 1 false through.

Definition example_reader (color0 color1 : bool) : VertexReader :=
  mkVertexReader true true color0 color1
    (fun index => mkVec3 (F32.of_Z (10 + index)) (F32.of_bits 0x41a40000) f0)
    (fun _ => mkVec2 fhalf fhalf)
    (fun _ => mkVec3 f0 f0 f1)
    (fun _ => mkVec4 f1 f1 f1 f1)
    (fun _ => mkVec3 f0 f0 f0).

(** Collaborators for that draw call: index bounds 0 to 255, the reader
    above whatever the range, and a lighting step that leaves the vertex as
    it is. *)
Definition example_ext (color0 color1 : bool) : Collaborators :=
  mkCollaborators (fun _ _ _ => (0, 255))
                  (fun _ _ _ _ => example_reader color0 color1)
                  (fun _ d => d).

Definition example_vertex : VertexData :=
  mkVertexData (mkVec2 f0 f0) (mkVec3 f0 f0 f0) (mkVec3 f0 f0 f0)
               (mkVec4 7 7 7 7) (mkVec3 7 7 7)
               (mkVec3 f0 f0 f0) (mkVec3 f0 f0 f0) (mkVec4 f0 f0 f0 f0)
               (mkDrawing 7 7).

Definition example_uninit : Z -> nat -> VertexData := fun _ _ => example_vertex.

(** [f] holds of every integer whose bits above the lowest [bits] are
    [prefix]. *)
Fixpoint all_below (bits : nat) (f : Z -> bool) (prefix : Z) : bool :=
  match bits with
  | O => f prefix
  | S b => all_below b f (2 * prefix) && all_below b f (2 * prefix + 1)
  end.

Definition is_ReadColor0 (e : Event) : bool :=
  match e with EvReadColor0 => true | _ => false end.

Definition is_ProcessTriangle (e : Event) : bool :=
  match e with EvProcessTriangle _ => true | _ => false end.

Definition is_ProcessQuad (e : Event) : bool :=
  match e with EvProcessQuad _ => true | _ => false end.

(** The records the cursor was moved to, in order. *)
Fixpoint gotos (tr : list Event) : list Z :=
  match tr with
  | [] => []
  | EvGoto index :: tr' => index :: gotos tr'
  | _ :: tr' => gotos tr'
  end.

(** The groups handed to [Clipper::ProcessQuad], in order. *)
Fixpoint quads (tr : list Event) : list (list VertexData) :=
  match tr with
  | [] => []
  | EvProcessQuad data :: tr' => data :: quads tr'
  | _ :: tr' => quads tr'
  end.

Definition is_DecodeVerts (e : Event) : bool :=
  match e with EvDecodeVerts _ _ => true | _ => false end.

(** The events of the inner loop: cursor moves, attribute reads and calls of
    the lighting step. *)
Definition is_vertex_event (e : Event) : bool :=
  match e with
  | EvGoto _ | EvReadPos | EvReadUV | EvReadNrm | EvReadColor0 | EvReadColor1
  | EvLightingProcess _ => true
  | _ => false
  end.

(** A group of three slots whose third is as the default constructor left
    it. *)
Definition third_slot_uninit (uninit : Z -> nat -> VertexData)
    (data : list VertexData) : Prop :=
  length data = 3%nat /\ exists vtx, nth_error data 2 = Some (uninit vtx 2%nat).

(** Whether a pool of [n] workers parallelises the loop of bounds [c]. *)
Definition parallelised (n : Z) (c : Z * Z) : bool :=
  Int.to_int (snd c - fst c) >=? n * 2.

(** The pool after a series of calls of [ParallelLoop], given by their
    bounds. *)
Definition loops (p : ThreadPool.ThreadPool) (calls : list (Z * Z))
  : ThreadPool.ThreadPool :=
  fold_left (fun q c => fst (ThreadPool.ParallelLoop q (fst c) (snd c))) calls p.

(** The shape of a pool of [n] workers: none before the first parallelised
    loop ([started] false), [n] after it, the last of which is as it was
    created. *)
Definition pool_shape (n : Z) (started : bool) (p : ThreadPool.ThreadPool) : Prop :=
  ThreadPool.numThreads_ p = n /\
  ThreadPool.workersStarted p = started /\
  length (ThreadPool.workers p) = (if started then Z.to_nat n else 0%nat) /\
  (forall w, nth_error (ThreadPool.workers p) (Z.to_nat (n - 1)) = Some w ->
             w = ThreadPool.idle_worker).

(** The job counters of a pool of [n] workers after [k] parallelised loops:
    workers 0 to [n - 2] have been given [k] jobs and have done them. *)
Definition pool_counters (n k : Z) (p : ThreadPool.ThreadPool) : Prop :=
  forall j w, nth_error (ThreadPool.workers p) j = Some w ->
    ThreadPool.jobsDone w = ThreadPool.jobsTarget w /\
    ThreadPool.jobsDone w = (if (Z.of_nat j <? n - 1) then k else 0).

(** [v] is the vertex the body of the inner loop builds, before the lighting
    step, in a slot that held [d], from the record at [index]: the attributes
    of lines 112 to 138 and the positions of lines 140 to 156.  A field the
    body does not assign is as in [d]. *)
Definition assembled_from (g : GPUState) (r : VertexReader) (index : Z)
    (d v : VertexData) : Prop :=
  let pos := pos_at r index in
  let col := color0_at r index in
  texturecoords v
  = (if TransformUnit.reads_uv g r then uv_at r index else texturecoords d) /\
  normal v = (if hasNormal r then nrm_at r index else normal d) /\
  color0 v
  = (if hasColor0 r
     then mkVec4 (TransformUnit.scale255 (v4x col)) (TransformUnit.scale255 (v4y col))
                 (TransformUnit.scale255 (v4z col)) (TransformUnit.scale255 (v4w col))
     else TransformUnit.material_color g) /\
  color1 v
  = (if hasColor1 r
     then mkVec3 (TransformUnit.scale255 (v4x col)) (TransformUnit.scale255 (v4y col))
                 (TransformUnit.scale255 (v4z col))
     else mkVec3 0 0 0) /\
  if isModeThrough g then
    drawpos v = mkDrawing (F32.to_u16 (v3x pos)) (F32.to_u16 (v3y pos)) /\
    worldpos v = worldpos d /\ viewpos v = viewpos d /\ clippos v = clippos d /\
    worldnormal v = worldnormal d
  else
    worldpos v = TransformUnit.ModelToWorld g pos /\
    viewpos v = TransformUnit.WorldToView g (worldpos v) /\
    clippos v = TransformUnit.ViewToClip g (viewpos v) /\
    drawpos v
    = TransformUnit.ScreenToDrawing g (TransformUnit.ClipToScreen g (clippos v)) /\
    worldnormal v
    = (if hasNormal r
       then let wn := Math3D.vec3_sub (TransformUnit.ModelToWorld g (normal v))
                                      (TransformUnit.translation (worldMatrix g)) in
            Math3D.vec3_div wn (Math3D.Length wn)
       else worldnormal d).

(** Goals and hypotheses on the range of [int], opened up for [lia]. *)
Ltac int_range := unfold Int.in_int, Int.INT_MIN, Int.INT_MAX in *.

(** ** Facts on fixed-width integers *)

Lemma to_int_id (z : Z) : Int.in_int z -> Int.to_int z = z.
Proof.
  intros H. int_range; unfold Int.to_int.
  rewrite Z.mod_small; lia.
Qed.

Lemma to_u32_id (z : Z) : 0 <= z < 2 ^ 32 -> Int.to_u32 z = z.
Proof. intros H. unfold Int.to_u32. now apply Z.mod_small. Qed.

Lemma to_u16_id (z : Z) : 0 <= z < 2 ^ 16 -> Int.to_u16 z = z.
Proof. intros H. unfold Int.to_u16. now apply Z.mod_small. Qed.

Lemma land_low_bits (z n : Z) : 0 <= n -> Z.land z (2 ^ n - 1) = z mod 2 ^ n.
Proof.
  intros Hn. replace (2 ^ n - 1) with (Z.ones n).
  - now apply Z.land_ones.
  - rewrite Z.ones_equiv. lia.
Qed.

Lemma land_0xff (z : Z) : Z.land z 0xFF = z mod 256.
Proof. exact (land_low_bits z 8 ltac:(lia)). Qed.

Lemma land_0xffff (z : Z) : Z.land z 0xffff = z mod 2 ^ 16.
Proof. exact (land_low_bits z 16 ltac:(lia)). Qed.

Lemma land_0x3ff (z : Z) : Z.land z 0x3ff = z mod 1024.
Proof. exact (land_low_bits z 10 ltac:(lia)). Qed.

Lemma mod32_mod16 (z : Z) : (z mod 2 ^ 32) mod 2 ^ 16 = z mod 2 ^ 16.
Proof.
  rewrite <- !land_0xffff.
  rewrite <- (land_low_bits z 32) by lia.
  rewrite <- Z.land_assoc. reflexivity.
Qed.

(** ** ScreenToDrawing *)

Lemma screen_to_drawing1_spec (coord offset : Z) :
  0 <= coord < 2 ^ 16 ->
  TransformUnit.screen_to_drawing1 coord offset
  = ((coord - Z.land offset 0xffff) mod 2 ^ 32 / 16) mod 1024.
Proof.
  intros Hc. unfold TransformUnit.screen_to_drawing1.
  rewrite (to_u32_id coord) by lia.
  rewrite !land_0xffff, land_0x3ff.
  unfold Int.to_u32. rewrite mod32_mod16.
  apply to_u16_id.
  pose proof (Z.mod_pos_bound ((coord - offset mod 2 ^ 16) mod 2 ^ 32 / 16) 1024).
  lia.
Qed.

Lemma screen_to_drawing1_cases (coord offset : Z) :
  0 <= coord < 2 ^ 16 ->
  let o := Z.land offset 0xffff in
  (o <= coord ->
   TransformUnit.screen_to_drawing1 coord offset = ((coord - o) / 16) mod 1024) /\
  (coord < o ->
   TransformUnit.screen_to_drawing1 coord offset
   = ((2 ^ 32 + coord - o) / 16) mod 1024).
Proof.
  intros Hc o.
  assert (Ho : 0 <= o < 2 ^ 16).
  { unfold o. rewrite land_0xffff. apply Z.mod_pos_bound. lia. }
  rewrite screen_to_drawing1_spec by assumption. fold o.
  split; intros H.
  - rewrite (Z.mod_small (coord - o)) by lia. reflexivity.
  - replace ((coord - o) mod 2 ^ 32) with (2 ^ 32 + coord - o); [reflexivity|].
    apply Z.mod_unique with (q := -1); lia.
Qed.

(** C3.  [ScreenToDrawing] computes each component of its result as
    [((coord - (offset & 0xffff)) / 16) & 0x3ff] in unsigned 32-bit
    arithmetic: the difference is taken modulo 2^32, so when the masked
    offset exceeds the coordinate it wraps to [2^32 + coord - offset], and is
    neither clamped nor saturated. *)
Theorem ScreenToDrawing_unsigned_wrap (g : GPUState) (c : ScreenCoords) :
  0 <= sx c < 2 ^ 16 -> 0 <= sy c < 2 ^ 16 ->
  let ox := Z.land (offsetx g) 0xffff in
  let oy := Z.land (offsety g) 0xffff in
  let d := TransformUnit.ScreenToDrawing g c in
  dx d = Z.land ((sx c - ox) mod 2 ^ 32 / 16) 0x3ff /\
  dy d = Z.land ((sy c - oy) mod 2 ^ 32 / 16) 0x3ff /\
  (sx c < ox -> dx d = ((2 ^ 32 + sx c - ox) / 16) mod 1024) /\
  (sy c < oy -> dy d = ((2 ^ 32 + sy c - oy) / 16) mod 1024) /\
  (ox <= sx c -> dx d = ((sx c - ox) / 16) mod 1024) /\
  (oy <= sy c -> dy d = ((sy c - oy) / 16) mod 1024).
Proof.
  intros Hx Hy ox oy d. unfold d, TransformUnit.ScreenToDrawing. cbn [dx dy].
  rewrite !land_0x3ff.
  pose proof (screen_to_drawing1_cases (sx c) (offsetx g) Hx) as [Hx1 Hx2].
  pose proof (screen_to_drawing1_cases (sy c) (offsety g) Hy) as [Hy1 Hy2].
  repeat split; auto using screen_to_drawing1_spec.
Qed.

(** Offset registers 16 and 0x10010 (16 once masked): the coordinate 0 lies
    below the offset and comes out as 1023, not as 0; the coordinate 32
    comes out as 1. *)
Lemma ScreenToDrawing_unsigned_wrap_witness :
  TransformUnit.ScreenToDrawing (example_state false) (mkScreen 0 32 0)
  = mkDrawing 1023 1.
Proof.
  assert (Hx : 0 <= sx (mkScreen 0 32 0) < 2 ^ 16) by (cbn [sx]; lia).
  assert (Hy : 0 <= sy (mkScreen 0 32 0) < 2 ^ 16) by (cbn [sy]; lia).
  destruct (ScreenToDrawing_unsigned_wrap (example_state false) (mkScreen 0 32 0)
              Hx Hy) as [_ [_ [Hwrap [_ [_ Hplain]]]]].
  assert (Hdx := Hwrap ltac:(vm_compute; reflexivity)).
  assert (Hdy := Hplain ltac:(vm_compute; discriminate)).
  destruct (TransformUnit.ScreenToDrawing (example_state false) (mkScreen 0 32 0))
    as [x y].
  cbn [dx dy] in Hdx, Hdy. rewrite Hdx, Hdy. vm_compute. reflexivity.
Defined.

(** ** The thread pool *)

Section PoolFacts.

Import ThreadPool.

(** C6.  Whatever size is requested, the pool a [ThreadPool] is constructed
    with counts between 1 and 8 workers: 1 for a request of 0 or less, 8 for
    a request above 8, and the requested number otherwise.  No worker exists
    before the first parallel loop; starting the workers creates exactly
    that many. *)
Theorem ThreadPool_size_clamped (numThreads : Z) :
  let p := ThreadPool.new numThreads in
  1 <= numThreads_ p <= 8 /\
  (numThreads <= 0 -> numThreads_ p = 1) /\
  (8 < numThreads -> numThreads_ p = 8) /\
  (1 <= numThreads <= 8 -> numThreads_ p = numThreads) /\
  workers p = [] /\
  Z.of_nat (length (workers (StartWorkers p))) = numThreads_ p /\
  numThreads_ (StartWorkers p) = numThreads_ p.
Proof.
  unfold ThreadPool.new, StartWorkers. cbn [numThreads_ workers workersStarted].
  rewrite app_nil_l, repeat_length.
  destruct (Z.leb_spec numThreads 0); [|destruct (Z.gtb_spec numThreads 8)];
    repeat split; lia.
Qed.

Lemma indices_of_shift (a : Z) (x y : nat) :
  map (fun k => a + Z.of_nat k) (seq x y)
  = map (fun k => a + Z.of_nat x + Z.of_nat k) (seq 0 y).
Proof.
  revert a x. induction y as [|y IH]; intros a x; [reflexivity|].
  cbn [seq map]. f_equal; [lia|].
  rewrite (IH a (S x)), (IH (a + Z.of_nat x) 1%nat).
  apply map_ext. intros k. lia.
Qed.

(** Two adjacent ranges make up one range. *)
Lemma indices_of_app (a b c : Z) :
  a <= b <= c ->
  indices_of (a, b) ++ indices_of (b, c) = indices_of (a, c).
Proof.
  intros H. unfold indices_of. cbn [fst snd].
  replace (Z.to_nat (c - a)) with (Z.to_nat (b - a) + Z.to_nat (c - b))%nat by lia.
  rewrite seq_app, map_app, Nat.add_0_l.
  rewrite (indices_of_shift a (Z.to_nat (b - a))).
  apply (f_equal (app _)).
  apply map_ext. intros k. lia.
Qed.

(** The ranges of [n] chunks of size [chunk] laid end to end from [s]. *)
Lemma chunks_cover (chunk s : Z) (n : nat) :
  0 <= chunk ->
  flat_map indices_of
    (map (fun i => (s + Z.of_nat i * chunk, s + (Z.of_nat i + 1) * chunk)) (seq 0 n))
  = indices_of (s, s + Z.of_nat n * chunk).
Proof.
  intros Hc. induction n as [|n IH].
  - cbn. unfold indices_of. cbn [fst snd].
    replace (s + 0 - s) with 0 by lia. reflexivity.
  - rewrite seq_S, map_app, flat_map_app, IH. cbn [map flat_map Nat.add].
    rewrite app_nil_r. rewrite indices_of_app by nia.
    f_equal. f_equal. lia.
Qed.

Lemma dispatch_spec (n : nat) : forall (i : nat) (chunk s : Z) p tr,
  0 <= chunk -> Int.in_int s -> Int.in_int (s + Z.of_nat n * chunk) ->
  exists p',
    dispatch n i chunk s p tr
    = (s + Z.of_nat n * chunk, p',
       tr ++ map (fun k => EvProcess (i + k) (s + Z.of_nat k * chunk)
                                     (s + (Z.of_nat k + 1) * chunk)) (seq 0 n))
    /\ numThreads_ p' = numThreads_ p.
Proof.
  induction n as [|n IH]; intros i chunk s p tr Hc Hs He.
  - exists p. cbn. rewrite app_nil_r. split; [|reflexivity].
    f_equal. f_equal. lia.
  - cbn [dispatch].
    assert (Hstep : Int.to_int (s + chunk) = s + chunk).
    { apply to_int_id. int_range; nia. }
    rewrite Hstep.
    destruct (IH (S i) chunk (s + chunk)
                 (on_worker p i (fun w => Process w s (s + chunk)))
                 (tr ++ [EvProcess i s (s + chunk)])) as [p' [Hd Hn]].
    + assumption.
    + int_range; nia.
    + replace (s + chunk + Z.of_nat n * chunk) with (s + Z.of_nat (S n) * chunk) by lia.
      assumption.
    + exists p'. rewrite Hd. split.
      * f_equal; [f_equal; lia|].
        rewrite <- app_assoc. f_equal.
        cbn [seq map app]. f_equal.
        -- f_equal; [lia|lia|lia].
        -- rewrite <- seq_shift, map_map. apply map_ext. intros k.
           f_equal; lia.
      * rewrite Hn. unfold on_worker.
        destruct (nth_error (workers p) i); reflexivity.
Qed.

Lemma wait_all_spec (n : nat) : forall (i : nat) p tr,
  snd (wait_all n i p tr) = tr ++ map EvWaitForCompletion (seq i n).
Proof.
  induction n as [|n IH]; intros i p tr.
  - cbn. now rewrite app_nil_r.
  - cbn [wait_all]. rewrite IH, <- app_assoc. reflexivity.
Qed.

Lemma loop_calls_app (t1 t2 : list ThreadPool.Event) :
  loop_calls (t1 ++ t2) = loop_calls t1 ++ loop_calls t2.
Proof.
  induction t1 as [|e t1 IH]; [reflexivity|].
  destruct e; cbn; now rewrite IH.
Qed.

Lemma loop_calls_process (f : nat -> Z * Z) (l : list nat) :
  loop_calls (map (fun k => EvProcess k (fst (f k)) (snd (f k))) l)
  = map (fun k => (Some k, f k)) l.
Proof.
  induction l as [|k l IH]; [reflexivity|].
  cbn. rewrite IH. now destruct (f k).
Qed.

Lemma loop_calls_wait (l : list nat) :
  loop_calls (map EvWaitForCompletion l) = [].
Proof. induction l as [|k l IH]; [reflexivity|]. exact IH. Qed.

Lemma workers_distinct (m : nat) : NoDup (map Some (seq 0 m) ++ [@None nat]).
Proof.
  apply NoDup_app.
  - generalize (seq_NoDup m 0). generalize (seq 0 m).
    induction 1 as [|k l Hk Hl IH]; cbn; constructor; [|assumption].
    intros Hin. apply in_map_iff in Hin. destruct Hin as [j [Hj Hjl]].
    inversion Hj. now subst j.
  - constructor; [intros []|constructor].
  - intros a Ha [Hb|[]]. subst a.
    apply in_map_iff in Ha. destruct Ha as [k [Hk _]]. discriminate.
Qed.

(** C5.  [ParallelLoop] on a pool of [n] workers: when [upper - lower < 2 n]
    the only call is [loop(lower, upper)], made by the calling thread, and no
    worker is given a job.  Otherwise workers 0 to [n - 2] are each given one
    chunk of [(upper - lower) / n] indices, laid end to end from [lower]; the
    calling thread runs the final chunk, which ends at [upper] and so carries
    the remainder of the division; then the workers are waited for.  The
    chunks, taken in order, list every index of [[lower, upper)] exactly
    once, and no two of them are run by the same thread. *)
Theorem ParallelLoop_partitions (p : ThreadPool) (lower upper : Z) :
  1 <= numThreads_ p <= 8 ->
  Int.in_int lower -> Int.in_int upper -> Int.in_int (upper - lower) ->
  let n := numThreads_ p in
  let chunk := (upper - lower) / n in
  let tr := snd (ParallelLoop p lower upper) in
  (upper - lower < 2 * n -> tr = [EvLoop lower upper]) /\
  (2 * n <= upper - lower ->
   tr = map (fun i => EvProcess i (lower + Z.of_nat i * chunk)
                                  (lower + (Z.of_nat i + 1) * chunk))
            (seq 0 (Z.to_nat (n - 1)))
        ++ [EvLoop (lower + (n - 1) * chunk) upper]
        ++ map EvWaitForCompletion (seq 0 (Z.to_nat (n - 1))) /\
   loop_calls tr
   = map (fun i => (Some i, (lower + Z.of_nat i * chunk,
                             lower + (Z.of_nat i + 1) * chunk)))
         (seq 0 (Z.to_nat (n - 1)))
     ++ [(None, (lower + (n - 1) * chunk, upper))] /\
   upper - (lower + (n - 1) * chunk) = chunk + (upper - lower) mod n /\
   NoDup (map fst (loop_calls tr)) /\
   flat_map indices_of (map snd (loop_calls tr)) = indices_of (lower, upper)).
Proof.
  intros Hn Hlo Hup Hrange n chunk tr.
  unfold tr, ParallelLoop. rewrite (to_int_id _ Hrange). fold n.
  destruct (Z.geb_spec (upper - lower) (n * 2)) as [Hbig|Hsmall].
  2: { split; [reflexivity|lia]. }
  split; [lia|]. intros _.
  assert (HnS : numThreads_ (StartWorkers p) = n).
  { unfold StartWorkers. now destruct (workersStarted p). }
  rewrite HnS.
  assert (Hq : Z.quot (upper - lower) n = chunk).
  { apply Z.quot_div_nonneg; lia. }
  rewrite Hq.
  assert (Hchunk : 0 <= chunk) by (apply Z.div_pos; lia).
  assert (Hle : n * chunk <= upper - lower) by (apply Z.mul_div_le; lia).
  assert (Hm : Z.of_nat (Z.to_nat (n - 1)) = n - 1) by lia.
  destruct (dispatch_spec (Z.to_nat (n - 1)) 0 chunk lower (StartWorkers p) [])
    as [p' [Hd _]].
  { assumption. }
  { assumption. }
  { rewrite Hm. int_range; nia. }
  rewrite Hd, wait_all_spec, Hm. cbn [app Nat.add].
  assert (Htr : forall A (a b c : list A), (a ++ b) ++ c = a ++ b ++ c).
  { intros. now rewrite app_assoc. }
  rewrite Htr.
  match goal with |- ?T = _ /\ _ => set (t := T) end.
  set (ch := fun i : nat => (lower + Z.of_nat i * chunk, lower + (Z.of_nat i + 1) * chunk)).
  assert (Hcalls :
    loop_calls t
    = map (fun i => (Some i, ch i)) (seq 0 (Z.to_nat (n - 1)))
      ++ [(None, (lower + (n - 1) * chunk, upper))]).
  { unfold t. rewrite !loop_calls_app, loop_calls_wait, app_nil_r.
    rewrite (loop_calls_process ch). reflexivity. }
  split; [reflexivity|].
  rewrite Hcalls.
  split; [reflexivity|].
  split.
  { rewrite (Z.mod_eq (upper - lower) n) by lia. fold chunk. lia. }
  split.
  { rewrite map_app, map_map. cbn [map fst]. apply workers_distinct. }
  rewrite map_app, map_map. cbn [map snd].
  rewrite flat_map_app. unfold ch.
  rewrite (chunks_cover chunk lower (Z.to_nat (n - 1)) Hchunk), Hm.
  cbn [flat_map]. rewrite app_nil_r.
  apply indices_of_app. lia.
Qed.

(** A pool of four workers on the range [[3, 20)]: chunks of four indices go
    to workers 0, 1 and 2, and the calling thread runs [[15, 20)]. *)
Lemma ParallelLoop_partitions_witness :
  loop_calls (snd (ParallelLoop (ThreadPool.new 4) 3 20))
  = [(Some 0%nat, (3, 7)); (Some 1%nat, (7, 11)); (Some 2%nat, (11, 15));
     (None, (15, 20))] /\
  snd (ParallelLoop (ThreadPool.new 4) 3 10) = [EvLoop 3 10].
Proof.
  assert (H1 : 1 <= numThreads_ (ThreadPool.new 4) <= 8) by (cbn; lia).
  assert (H3 : Int.in_int 3) by (unfold Int.in_int; cbn; lia).
  assert (H20 : Int.in_int 20) by (unfold Int.in_int; cbn; lia).
  assert (H10 : Int.in_int 10) by (unfold Int.in_int; cbn; lia).
  assert (H17 : Int.in_int (20 - 3)) by (unfold Int.in_int; cbn; lia).
  assert (H7 : Int.in_int (10 - 3)) by (unfold Int.in_int; cbn; lia).
  split.
  - destruct (ParallelLoop_partitions (ThreadPool.new 4) 3 20 H1 H3 H20 H17)
      as [_ Hbig].
    destruct (Hbig ltac:(cbn; lia)) as [_ [Hcalls _]].
    rewrite Hcalls. reflexivity.
  - destruct (ParallelLoop_partitions (ThreadPool.new 4) 3 10 H1 H3 H10 H7)
      as [Hsmall _].
    apply Hsmall. cbn. lia.
Defined.

End PoolFacts.

(** ** Assembling one vertex *)

Section VertexFacts.

Import TransformUnit.

Variable ext : Collaborators.
Variable g : GPUState.
Variable r : VertexReader.
Variable indices : option (list Z).
Variable indices_16bit : bool.

Lemma count_app (p : Event -> bool) (a b : list Event) :
  count p (a ++ b) = (count p a + count p b)%nat.
Proof. unfold count. now rewrite filter_app, length_app. Qed.

Lemma vec2_eta (T : Type) (v : Vec2 T) : mkVec2 (v2x v) (v2y v) = v.
Proof. now destruct v. Qed.

Lemma vec3_eta (T : Type) (v : Vec3 T) : mkVec3 (v3x v) (v3y v) (v3z v) = v.
Proof. now destruct v. Qed.

(** Lines 105 to 138 as a function of the vertex found at the cursor. *)
Lemma ReadAttributes_spec (vtx : Z) (i : nat) (d : VertexData) (s : St) :
  let index := vertex_index indices indices_16bit vtx i in
    ReadAttributes g r indices indices_16bit vtx i d s
    = ((pos_at r index,
        mkVertexData
          (if reads_uv g r then uv_at r index else texturecoords d)
          (if hasNormal r then nrm_at r index else normal d)
          (worldnormal d)
          (if hasColor0 r
           then mkVec4 (scale255 (v4x (color0_at r index)))
                       (scale255 (v4y (color0_at r index)))
                       (scale255 (v4z (color0_at r index)))
                       (scale255 (v4w (color0_at r index)))
           else material_color g)
          (if hasColor1 r
           then mkVec3 (scale255 (v4x (color0_at r index)))
                       (scale255 (v4y (color0_at r index)))
                       (scale255 (v4z (color0_at r index)))
           else mkVec3 0 0 0)
          (worldpos d) (viewpos d) (clippos d) (drawpos d)),
       mkSt index
            (trace s ++ EvGoto index :: EvReadPos
               :: (if reads_uv g r then [EvReadUV] else [])
               ++ (if hasNormal r then [EvReadNrm] else [])
               ++ (if hasColor0 r then [EvReadColor0] else [])
               ++ (if hasColor1 r then [EvReadColor0] else []))).
Proof.
  intros index. unfold ReadAttributes. fold index.
  unfold bind, Goto, ReadPos, ReadUV, ReadNrm, ReadColor0, ret.
  destruct (reads_uv g r), (hasNormal r), (hasColor0 r), (hasColor1 r);
    cbn [cursor trace set_texturecoords set_normal set_color0 set_color1
         texturecoords normal worldnormal color0 color1 worldpos viewpos
         clippos drawpos app];
    rewrite ?vec2_eta, ?vec3_eta, <- ?app_assoc; reflexivity.
Qed.

(** The events of one vertex: a cursor move, the attribute reads, then the
    call of the lighting step outside of through mode. *)
Lemma AssembleVertex_events (vtx : Z) (i : nat) (d : VertexData) (s : St) :
  exists evs,
    trace (snd (AssembleVertex ext g r indices indices_16bit vtx i d s))
    = trace s ++ evs /\
    count is_ReadPos evs = 1%nat /\
    count is_Lighting evs = (if isModeThrough g then 0 else 1)%nat /\
    count is_Process evs = 0%nat /\
    count is_ReadColor1 evs = 0%nat.
Proof.
  unfold AssembleVertex, bind.
  rewrite ReadAttributes_spec.
  cbn [fst snd]. unfold TransformVertex, Lighting_Process, ret.
  destruct (isModeThrough g); cbn [negb snd trace cursor];
    eexists; (split; [rewrite <- ?app_assoc; reflexivity|]);
    destruct (reads_uv g r), (hasNormal r), (hasColor0 r), (hasColor1 r);
    repeat split; reflexivity.
Qed.

(** One vertex, whole: the slot ends as [lit v], where [v] carries the
    attributes read at the cursor (and, outside of through mode, is the
    argument of the lighting call). *)
Lemma AssembleVertex_spec (vtx : Z) (i : nat) (d : VertexData) (s : St) :
  let res := AssembleVertex ext g r indices indices_16bit vtx i d s in
  let index := vertex_index indices indices_16bit vtx i in
  cursor (snd res) = index /\
  exists v,
    fst res = lit ext g v /\
    texturecoords v = (if reads_uv g r then uv_at r index else texturecoords d) /\
    color0 v = (if hasColor0 r
                then mkVec4 (scale255 (v4x (color0_at r index)))
                            (scale255 (v4y (color0_at r index)))
                            (scale255 (v4z (color0_at r index)))
                            (scale255 (v4w (color0_at r index)))
                else material_color g) /\
    color1 v = (if hasColor1 r
                then mkVec3 (scale255 (v4x (color0_at r index)))
                            (scale255 (v4y (color0_at r index)))
                            (scale255 (v4z (color0_at r index)))
                else mkVec3 0 0 0) /\
    trace (snd res)
    = trace s ++ EvGoto index :: EvReadPos
        :: (if reads_uv g r then [EvReadUV] else [])
        ++ (if hasNormal r then [EvReadNrm] else [])
        ++ (if hasColor0 r then [EvReadColor0] else [])
        ++ (if hasColor1 r then [EvReadColor0] else [])
        ++ (if isModeThrough g then [] else [EvLightingProcess v]).
Proof.
  unfold AssembleVertex, bind.
  rewrite ReadAttributes_spec.
  cbn [fst snd]. unfold TransformVertex, Lighting_Process, ret, lit.
  destruct (isModeThrough g); cbn [negb fst snd trace cursor];
    (split; [reflexivity|]).
  - eexists. split; [reflexivity|].
    cbn [set_drawpos texturecoords color0 color1].
    repeat split. now rewrite !app_nil_r.
  - eexists. split; [reflexivity|].
    destruct (hasNormal r);
      cbn [set_drawpos set_clippos set_viewpos set_worldpos set_worldnormal
           texturecoords color0 color1];
      repeat split; rewrite <- app_assoc; cbn [app];
      repeat (f_equal; try (rewrite <- app_assoc; cbn [app])).
Qed.

End VertexFacts.

(** ** The claims on one vertex *)

Section VertexClaims.

Import TransformUnit.

Lemma all_below_spec (bits : nat) (f : Z -> bool) : forall prefix n,
  all_below bits f prefix = true ->
  prefix * 2 ^ Z.of_nat bits <= n < (prefix + 1) * 2 ^ Z.of_nat bits ->
  f n = true.
Proof.
  induction bits as [|b IH]; intros prefix n Hall Hn.
  - cbn in Hall. change (2 ^ Z.of_nat 0) with 1 in Hn.
    replace n with prefix by lia. exact Hall.
  - cbn [all_below] in Hall. apply andb_prop in Hall. destruct Hall as [H0 H1].
    rewrite Nat2Z.inj_succ, Z.pow_succ_r in Hn by lia.
    destruct (Z_lt_le_dec n ((2 * prefix + 1) * 2 ^ Z.of_nat b)).
    + apply (IH (2 * prefix)); [exact H0|lia].
    + apply (IH (2 * prefix + 1)); [exact H1|lia].
Qed.

(** A coordinate that is a whole number of [0, 65535] is stored as it is. *)
Lemma to_u16_of_Z (n : Z) : 0 <= n < 2 ^ 16 -> F32.to_u16 (F32.of_Z n) = n.
Proof.
  intros Hn. apply Z.eqb_eq.
  apply (all_below_spec 16 (fun k => F32.to_u16 (F32.of_Z k) =? k) 0).
  - vm_compute. reflexivity.
  - change (Z.of_nat 16) with 16. lia.
Qed.

Lemma count_ReadUV_reads (a b c d : bool) (e : list Event) :
  count is_ReadUV
    (EvReadPos :: (if a then [EvReadUV] else [])
       ++ (if b then [EvReadNrm] else []) ++ (if c then [EvReadColor0] else [])
       ++ (if d then [EvReadColor0] else []) ++ e)
  = ((if a then 1 else 0) + count is_ReadUV e)%nat.
Proof. destruct a, b, c, d; reflexivity. Qed.

Variable ext : Collaborators.
Variable g : GPUState.
Variable r : VertexReader.
Variable indices : option (list Z).
Variable indices_16bit : bool.
Variable vtx : Z.
Variable i : nat.
Variable d : VertexData.
Variable s : St.

(** C1.  On a vertex whose format declares a secondary colour, [color1] is
    filled from the channels that [ReadColor0] yields, the primary colour's
    first three, each multiplied by 255 and truncated; [ReadColor1] is not
    called. *)
Theorem color1_is_read_with_ReadColor0 :
  hasColor1 r = true ->
  let res := AssembleVertex ext g r indices indices_16bit vtx i d s in
  let col := color0_at r (cursor (snd res)) in
  exists v,
    fst res = lit ext g v /\
    color1 v = mkVec3 (F32.to_int (v4x col * F32.of_Z 255)%f32)
                      (F32.to_int (v4y col * F32.of_Z 255)%f32)
                      (F32.to_int (v4z col * F32.of_Z 255)%f32) /\
    count is_ReadColor1 (trace (snd res)) = count is_ReadColor1 (trace s).
Proof.
  intros Hc1 res col.
  destruct (AssembleVertex_spec ext g r indices indices_16bit vtx i d s)
    as [Hcur [v [Hv [_ [_ [Hcol _]]]]]].
  exists v. split; [exact Hv|]. split.
  - unfold col, res. rewrite Hcur, Hcol, Hc1. reflexivity.
  - destruct (AssembleVertex_events ext g r indices indices_16bit vtx i d s)
      as [evs [Htr [_ [_ [_ Hnone]]]]].
    unfold res. rewrite Htr, count_app, Hnone. lia.
Qed.

(** C7.  On a vertex whose format declares no primary colour, [color0] is
    the unpacking of the material registers:
    [(materialdiffuse & 0xFF, (materialdiffuse >> 8) & 0xFF,
      (materialdiffuse >> 16) & 0xFF, materialalpha & 0xFF)],
    that is bytes 0, 1 and 2 of the diffuse register and byte 0 of the alpha
    register.  This is the colour of the vertex as [SubmitPrimitive] fills
    it: the one the group holds in through mode, and the one the lighting
    step is called on otherwise. *)
Theorem color0_falls_back_to_material :
  hasColor0 r = false ->
  let res := AssembleVertex ext g r indices indices_16bit vtx i d s in
  exists v,
    fst res = lit ext g v /\
    color0 v = mkVec4 (Z.land (materialdiffuse g) 0xFF)
                      (Z.land (Z.shiftr (materialdiffuse g) 8) 0xFF)
                      (Z.land (Z.shiftr (materialdiffuse g) 16) 0xFF)
                      (Z.land (materialalpha g) 0xFF) /\
    color0 v = mkVec4 (materialdiffuse g mod 256)
                      (materialdiffuse g / 2 ^ 8 mod 256)
                      (materialdiffuse g / 2 ^ 16 mod 256)
                      (materialalpha g mod 256) /\
    (isModeThrough g = true -> color0 (fst res) = color0 v).
Proof.
  intros Hc0 res.
  destruct (AssembleVertex_spec ext g r indices indices_16bit vtx i d s)
    as [_ [v [Hv [_ [Hcol _]]]]].
  rewrite Hc0 in Hcol. unfold material_color in Hcol.
  exists v. split; [exact Hv|]. split; [exact Hcol|]. split.
  - rewrite Hcol, !land_0xff, !Z.shiftr_div_pow2 by lia. reflexivity.
  - intros Hthrough. unfold res. rewrite Hv. unfold lit. now rewrite Hthrough.
Qed.

(** C8.  [texturecoords] is assigned, from the UV read at the vertex, exactly
    when clear mode is off, the texture-mapping register is not zero and the
    format declares UV; [ReadUV] is called in that case and in no other.  In
    every other case the field keeps the value the slot had before. *)
Theorem texturecoords_assigned_iff :
  let res := AssembleVertex ext g r indices indices_16bit vtx i d s in
  exists v,
    fst res = lit ext g v /\
    ((isModeClear g = false /\ textureMapEnable g <> 0 /\ hasUV r = true) ->
     texturecoords v = uv_at r (cursor (snd res)) /\
     count is_ReadUV (trace (snd res)) = S (count is_ReadUV (trace s))) /\
    ((isModeClear g = true \/ textureMapEnable g = 0 \/ hasUV r = false) ->
     texturecoords v = texturecoords d /\
     count is_ReadUV (trace (snd res)) = count is_ReadUV (trace s)).
Proof.
  intros res.
  destruct (AssembleVertex_spec ext g r indices indices_16bit vtx i d s)
    as [Hcur [v [Hv [Htex [_ [_ Htr]]]]]].
  fold res in Hv, Htex, Htr, Hcur. rewrite <- Hcur in Htex.
  assert (Hcount : count is_ReadUV (trace (snd res))
                   = (count is_ReadUV (trace s)
                      + (if reads_uv g r then 1 else 0))%nat).
  { rewrite Htr, count_app. f_equal.
    change (count is_ReadUV (EvGoto ?x :: ?l)) with (count is_ReadUV l).
    rewrite count_ReadUV_reads. destruct (isModeThrough g); cbn; lia. }
  exists v. split; [exact Hv|].
  unfold reads_uv in *. split.
  - intros [Hclear [Htme Huv]].
    apply Z.eqb_neq in Htme. rewrite Hclear, Htme, Huv in *. cbn in *.
    split; [exact Htex|lia].
  - intros Hnot.
    assert (Hoff : negb (isModeClear g) && negb (textureMapEnable g =? 0)
                   && hasUV r = false).
    { destruct Hnot as [H|[H|H]].
      - now rewrite H.
      - apply Z.eqb_eq in H. rewrite H. now destruct (isModeClear g).
      - rewrite H. apply andb_false_r. }
    rewrite Hoff in *. split; [exact Htex|lia].
Qed.

(** The whole of one vertex in through mode. *)
Lemma AssembleVertex_through :
  isModeThrough g = true ->
  let index := vertex_index indices indices_16bit vtx i in
  exists a,
    AssembleVertex ext g r indices indices_16bit vtx i d s
    = (set_drawpos a (mkDrawing (F32.to_u16 (v3x (pos_at r index)))
                                (F32.to_u16 (v3y (pos_at r index)))),
       mkSt index
            (trace s ++ EvGoto index :: EvReadPos
               :: (if reads_uv g r then [EvReadUV] else [])
               ++ (if hasNormal r then [EvReadNrm] else [])
               ++ (if hasColor0 r then [EvReadColor0] else [])
               ++ (if hasColor1 r then [EvReadColor0] else []))) /\
    worldpos a = worldpos d /\ viewpos a = viewpos d /\
    clippos a = clippos d /\ worldnormal a = worldnormal d.
Proof.
  intros Hthrough index. unfold AssembleVertex, bind.
  rewrite ReadAttributes_spec. fold index. cbn [fst snd].
  unfold TransformVertex, ret. rewrite Hthrough. cbn [negb].
  eexists. split; [reflexivity|]. repeat split.
Qed.

(** C4, as the code has it.  In through mode the drawing coordinate of a
    vertex is its decoded position's x and y, each converted to the unsigned
    16-bit coordinate type: the fraction is dropped, and a whole number of
    [0, 65535] is kept as it is.  The result is the same whatever the
    matrices, viewport and offset registers hold; the world, view and clip
    positions and the world normal of the slot are not written, and the
    lighting step is not called. *)
Theorem through_mode_bypasses_transform :
  isModeThrough g = true ->
  let res := AssembleVertex ext g r indices indices_16bit vtx i d s in
  let pos := pos_at r (cursor (snd res)) in
  drawpos (fst res) = mkDrawing (F32.to_u16 (v3x pos)) (F32.to_u16 (v3y pos)) /\
  (forall x y : Z,
     0 <= x < 2 ^ 16 -> 0 <= y < 2 ^ 16 ->
     v3x pos = F32.of_Z x -> v3y pos = F32.of_Z y ->
     drawpos (fst res) = mkDrawing x y) /\
  worldpos (fst res) = worldpos d /\
  viewpos (fst res) = viewpos d /\
  clippos (fst res) = clippos d /\
  worldnormal (fst res) = worldnormal d /\
  count is_Lighting (trace (snd res)) = count is_Lighting (trace s) /\
  (forall (ext' : Collaborators) (g' : GPUState),
     isModeThrough g' = true ->
     drawpos (fst (AssembleVertex ext' g' r indices indices_16bit vtx i d s))
     = drawpos (fst res)).
Proof.
  intros Hthrough res pos.
  destruct (AssembleVertex_through Hthrough) as [a [Hres [Hw [Hv [Hc Hn]]]]].
  assert (Hdraw : drawpos (fst res)
                  = mkDrawing (F32.to_u16 (v3x pos)) (F32.to_u16 (v3y pos))).
  { unfold pos, res. rewrite Hres. reflexivity. }
  split; [exact Hdraw|]. split.
  { intros x y Hx Hy Hpx Hpy.
    rewrite Hdraw, Hpx, Hpy, !to_u16_of_Z by assumption. reflexivity. }
  unfold res. rewrite Hres. cbn [fst snd set_drawpos worldpos viewpos clippos
                                  worldnormal trace].
  repeat (split; [assumption|]). split.
  - destruct (AssembleVertex_events ext g r indices indices_16bit vtx i d s)
      as [evs [Htr [_ [Hl _]]]].
    rewrite Hres, Hthrough in *. cbn [snd trace] in Htr.
    rewrite Htr, count_app, Hl. lia.
  - intros ext' g' Hthrough'.
    unfold AssembleVertex, bind. rewrite ReadAttributes_spec. cbn [fst snd].
    unfold TransformVertex, ret. rewrite Hthrough'. reflexivity.
Qed.

End VertexClaims.

(** A draw call whose vertices carry a white primary colour and a black
    secondary colour: [color1] comes out white, where scaling what
    [ReadColor1] yields gives black. *)
Lemma color1_is_read_with_ReadColor0_witness :
  let r := example_reader true true in
  let res := TransformUnit.AssembleVertex (example_ext true true) (example_state true)
               r None false 0 0 example_vertex (mkSt 0 []) in
  hasColor1 r = true /\
  color1 (fst res) = mkVec3 255 255 255 /\
  (let col := color1_at r (cursor (snd res)) in
   mkVec3 (F32.to_int (v3x col * F32.of_Z 255)%f32)
          (F32.to_int (v3y col * F32.of_Z 255)%f32)
          (F32.to_int (v3z col * F32.of_Z 255)%f32)) = mkVec3 0 0 0.
Proof.
  intros r res. split; [reflexivity|]. split; [|vm_compute; reflexivity].
  destruct (color1_is_read_with_ReadColor0 (example_ext true true)
              (example_state true) r None false 0 0 example_vertex (mkSt 0 [])
              eq_refl) as [v [Hv [Hcol _]]].
  fold res in Hv, Hcol. rewrite Hv. unfold lit. cbn [example_state isModeThrough].
  rewrite Hcol. vm_compute. reflexivity.
Defined.

(** Material registers 0x332211 and 0x80 on a format without a primary
    colour: [color0] is (0x11, 0x22, 0x33, 0x80). *)
Lemma color0_falls_back_to_material_witness :
  hasColor0 (example_reader false false) = false /\
  color0 (fst (TransformUnit.AssembleVertex (example_ext false false)
                 (example_state true) (example_reader false false) None false
                 0 0 example_vertex (mkSt 0 [])))
  = mkVec4 0x11 0x22 0x33 0x80.
Proof.
  split; [reflexivity|].
  destruct (color0_falls_back_to_material (example_ext false false)
              (example_state true) (example_reader false false) None false
              0 0 example_vertex (mkSt 0 []) eq_refl) as [v [_ [Hcol [_ Hfin]]]].
  rewrite (Hfin eq_refl), Hcol. reflexivity.
Defined.

(** The vertex at (10, 20.5) in through mode is drawn at (10, 20). *)
Lemma through_mode_bypasses_transform_witness :
  isModeThrough (example_state true) = true /\
  drawpos (fst (TransformUnit.AssembleVertex (example_ext false false)
                  (example_state true) (example_reader false false) None false
                  0 0 example_vertex (mkSt 0 [])))
  = mkDrawing 10 20.
Proof.
  split; [reflexivity|].
  destruct (through_mode_bypasses_transform (example_ext false false)
              (example_state true) (example_reader false false) None false
              0 0 example_vertex (mkSt 0 []) eq_refl) as [Hdraw _].
  rewrite Hdraw. vm_compute. reflexivity.
Defined.

(** C4 as stated fails: the decoded position (10, 20.5) in through mode gives
    the drawing coordinate (10, 20), whose y is below the position's y. *)
Lemma through_mode_drawpos_not_exact :
  let r := example_reader false false in
  let res := TransformUnit.AssembleVertex (example_ext false false) (example_state true)
               r None false 0 0 example_vertex (mkSt 0 []) in
  let pos := pos_at r (cursor (snd res)) in
  isModeThrough (example_state true) = true /\
  F32.of_Z (dy (drawpos (fst res))) <> v3y pos /\
  SFcompare (F32.of_Z (dy (drawpos (fst res)))) (v3y pos) = Some Lt.
Proof.
  intros r res pos. split; [reflexivity|]. split.
  - vm_compute. discriminate.
  - vm_compute. reflexivity.
Qed.

(** ** The loops of SubmitPrimitive *)

Section LoopFacts.

Import TransformUnit.

Variable K : GEConstants.
Variable ext : Collaborators.
Variable g : GPUState.
Variable uninit : Z -> nat -> VertexData.
Variable r : VertexReader.
Variable indices : option (list Z).
Variable indices_16bit : bool.
Variable prim_type : Z.
Variable vertex_count : Z.
Variable vtcs_per_prim : Z.

(** What one pass of the inner loop adds to the trace. *)
Lemma AssembleGroup_events (vtx : Z) (n : nat) :
  forall (i : nat) (data : list VertexData) (s : St),
  exists evs,
    trace (snd (AssembleGroup ext g uninit r indices indices_16bit vtx n i data s))
    = trace s ++ evs /\
    count is_ReadPos evs = n /\
    count is_Lighting evs = (if isModeThrough g then 0 else n)%nat /\
    count is_Process evs = 0%nat.
Proof.
  induction n as [|n IH]; intros i data s.
  - exists []. cbn. rewrite app_nil_r. destruct (isModeThrough g); auto.
  - cbn [AssembleGroup]. unfold bind.
    destruct (AssembleVertex_events ext g r indices indices_16bit vtx i
                (nth i data (uninit vtx i)) s) as [e1 [H1 [Hp1 [Hl1 [Hq1 _]]]]].
    destruct (AssembleVertex ext g r indices indices_16bit vtx i
                (nth i data (uninit vtx i)) s) as [d1 s1].
    cbn [snd] in H1.
    destruct (IH (S i) (update data i d1) s1) as [e2 [H2 [Hp2 [Hl2 Hq2]]]].
    exists (e1 ++ e2). rewrite H2, H1, <- app_assoc, !count_app.
    split; [reflexivity|]. rewrite Hp1, Hp2, Hl1, Hl2, Hq1, Hq2.
    destruct (isModeThrough g); auto.
Qed.

(** The [switch]: a consumer is called for triangles and for rectangles, and
    for nothing else. *)
Lemma Dispatch_events (data : list VertexData) (s : St) :
  snd (Dispatch K prim_type data s)
  = mkSt (cursor s)
         (trace s ++
          (if prim_type =? GE_PRIM_TRIANGLES K then [EvProcessTriangle data]
           else if prim_type =? GE_PRIM_RECTANGLES K then [EvProcessQuad data]
           else [])).
Proof.
  unfold Dispatch, emit, ret.
  destruct (prim_type =? GE_PRIM_TRIANGLES K); [reflexivity|].
  destruct (prim_type =? GE_PRIM_RECTANGLES K); [reflexivity|].
  cbn. rewrite app_nil_r. now destruct s.
Qed.

Lemma groups_done (n : Z) : 0 < vtcs_per_prim -> n <= 0 -> groups n vtcs_per_prim = 0.
Proof.
  intros Hv Hn. unfold groups. rewrite Z.max_l by lia.
  apply Z.div_small. lia.
Qed.

Lemma groups_step (n : Z) :
  0 < vtcs_per_prim -> 0 < n ->
  groups n vtcs_per_prim = 1 + groups (n - vtcs_per_prim) vtcs_per_prim.
Proof.
  intros Hv Hn. unfold groups. rewrite (Z.max_r 0 n) by lia.
  destruct (Z_le_gt_dec vtcs_per_prim n) as [Hle|Hgt].
  - rewrite Z.max_r by lia.
    replace (n + vtcs_per_prim - 1)
      with (n - vtcs_per_prim + vtcs_per_prim - 1 + 1 * vtcs_per_prim) by lia.
    rewrite Z.div_add by lia. lia.
  - rewrite Z.max_l by lia.
    rewrite (Z.div_small (0 + vtcs_per_prim - 1)) by lia.
    replace (n + vtcs_per_prim - 1) with (n - 1 + 1 * vtcs_per_prim) by lia.
    rewrite Z.div_add, Z.div_small by lia. lia.
Qed.

Lemma groups_nonneg (n : Z) : 0 < vtcs_per_prim -> 0 <= groups n vtcs_per_prim.
Proof. intros Hv. unfold groups. apply Z.div_pos; lia. Qed.

(** With a positive step the outer loop returns, after one pass per group. *)
Lemma PrimLoop_returns (fuel : nat) : forall (vtx : Z) (s : St),
  0 < vtcs_per_prim <= 3 ->
  vertex_count <= Int.INT_MAX - 3 ->
  0 <= vtx ->
  (Z.to_nat (groups (vertex_count - vtx) vtcs_per_prim) <= fuel)%nat ->
  exists s' evs,
    PrimLoop K ext g uninit r indices indices_16bit prim_type vertex_count
             vtcs_per_prim fuel vtx s = Returned s' /\
    trace s' = trace s ++ evs /\
    let n := Z.to_nat (groups (vertex_count - vtx) vtcs_per_prim) in
    let per := Z.to_nat vtcs_per_prim in
    count is_ReadPos evs = (n * per)%nat /\
    count is_Lighting evs = (if isModeThrough g then 0 else n * per)%nat /\
    count is_Process evs
    = if (prim_type =? GE_PRIM_TRIANGLES K) || (prim_type =? GE_PRIM_RECTANGLES K)
      then n else 0%nat.
Proof.
  induction fuel as [|fuel IH]; intros vtx s Hv Hmax Hvtx Hfuel.
  - destruct (Z.ltb_spec vtx vertex_count) as [Hlt|Hge].
    + rewrite groups_step in Hfuel by lia.
      pose proof (groups_nonneg (vertex_count - vtx - vtcs_per_prim)). lia.
    + exists s, []. cbn [PrimLoop].
      destruct (Z.ltb_spec vtx vertex_count); [lia|].
      rewrite app_nil_r, groups_done by lia.
      repeat split; destruct (isModeThrough g);
        destruct ((prim_type =? GE_PRIM_TRIANGLES K) || (prim_type =? GE_PRIM_RECTANGLES K));
        reflexivity.
  - cbn [PrimLoop]. destruct (Z.ltb_spec vtx vertex_count) as [Hlt|Hge].
    + destruct (AssembleGroup_events vtx (Z.to_nat vtcs_per_prim) 0
                  [uninit vtx 0%nat; uninit vtx 1%nat; uninit vtx 2%nat] s)
        as [e1 [H1 [Hp1 [Hl1 Hq1]]]].
      destruct (AssembleGroup ext g uninit r indices indices_16bit vtx
                  (Z.to_nat vtcs_per_prim) 0
                  [uninit vtx 0%nat; uninit vtx 1%nat; uninit vtx 2%nat] s)
        as [data' s1].
      cbn [snd] in H1.
      pose proof (Dispatch_events data' s1) as H2.
      destruct (Dispatch K prim_type data' s1) as [u s2]. cbn [snd] in H2.
      rewrite to_int_id
        by (int_range; lia).
      pose proof (groups_step (vertex_count - vtx) ltac:(lia) ltac:(lia)) as Hg.
      pose proof (groups_nonneg (vertex_count - vtx - vtcs_per_prim) ltac:(lia)) as Hg0.
      replace (vertex_count - vtx - vtcs_per_prim)
        with (vertex_count - (vtx + vtcs_per_prim)) in Hg, Hg0 by lia.
      destruct (IH (vtx + vtcs_per_prim) s2 Hv Hmax ltac:(lia) ltac:(lia))
        as [s' [e3 [Hret [Htr [Hp3 [Hl3 Hq3]]]]]].
      exists s'. eexists. split; [exact Hret|].
      rewrite Htr, H2. cbn [trace]. rewrite H1, <- !app_assoc.
      split; [reflexivity|].
      cbv zeta. rewrite !count_app, Hp1, Hp3, Hl1, Hl3, Hq1, Hq3, Hg.
      rewrite Z2Nat.inj_add by lia. change (Z.to_nat 1) with 1%nat.
      repeat split.
      * destruct (prim_type =? GE_PRIM_TRIANGLES K), (prim_type =? GE_PRIM_RECTANGLES K);
          cbn; lia.
      * destruct (isModeThrough g);
          destruct (prim_type =? GE_PRIM_TRIANGLES K), (prim_type =? GE_PRIM_RECTANGLES K);
          cbn; lia.
      * destruct (prim_type =? GE_PRIM_TRIANGLES K), (prim_type =? GE_PRIM_RECTANGLES K);
          cbn; lia.
    + exists s, []. rewrite app_nil_r, groups_done by lia.
      repeat split; destruct (isModeThrough g);
        destruct ((prim_type =? GE_PRIM_TRIANGLES K) || (prim_type =? GE_PRIM_RECTANGLES K));
        reflexivity.
Qed.

Lemma count_zero (p : Event -> bool) (l : list Event) :
  count p l = 0%nat -> Forall (fun e => p e = false) l.
Proof.
  unfold count. induction l as [|e l IH]; intros H; [constructor|].
  cbn in H. destruct (p e) eqn:He; [discriminate|].
  constructor; auto.
Qed.

(** However far the outer loop gets, the consumers it has called are those
    of the primitive type. *)
Lemma PrimLoop_consumers (fuel : nat) : forall (vtx : Z) (s : St),
  Forall (consumer_matches K prim_type) (trace s) ->
  Forall (consumer_matches K prim_type)
    (trace (state_of (PrimLoop K ext g uninit r indices indices_16bit prim_type
                               vertex_count vtcs_per_prim fuel vtx s))).
Proof.
  induction fuel as [|fuel IH]; intros vtx s Hs; cbn [PrimLoop];
    destruct (vtx <? vertex_count); try exact Hs.
  destruct (AssembleGroup_events vtx (Z.to_nat vtcs_per_prim) 0
              [uninit vtx 0%nat; uninit vtx 1%nat; uninit vtx 2%nat] s)
    as [e1 [H1 [_ [_ Hq1]]]].
  destruct (AssembleGroup ext g uninit r indices indices_16bit vtx
              (Z.to_nat vtcs_per_prim) 0
              [uninit vtx 0%nat; uninit vtx 1%nat; uninit vtx 2%nat] s)
    as [data' s1].
  cbn [snd] in H1.
  pose proof (Dispatch_events data' s1) as H2.
  destruct (Dispatch K prim_type data' s1) as [u s2]. cbn [snd] in H2.
  apply IH. rewrite H2. cbn [trace]. rewrite H1.
  apply Forall_app. split; [apply Forall_app; split; [exact Hs|]|].
  - apply count_zero in Hq1. revert Hq1. apply Forall_impl.
    intros e He. destruct e; try exact I; discriminate.
  - destruct (Z.eqb_spec prim_type (GE_PRIM_TRIANGLES K)) as [Ht|Ht].
    + repeat constructor. exact Ht.
    + destruct (Z.eqb_spec prim_type (GE_PRIM_RECTANGLES K)) as [Hr|Hr];
        repeat constructor. exact Hr.
Qed.

(** With a step of zero and a vertex to go, the outer loop makes no progress:
    no number of iterations ends it, and none adds an event. *)
Lemma PrimLoop_stuck (fuel : nat) (vtx : Z) (s : St) :
  vtcs_per_prim = 0 ->
  prim_type <> GE_PRIM_TRIANGLES K -> prim_type <> GE_PRIM_RECTANGLES K ->
  Int.in_int vtx -> vtx < vertex_count ->
  PrimLoop K ext g uninit r indices indices_16bit prim_type vertex_count
           vtcs_per_prim fuel vtx s = OutOfFuel s.
Proof.
  intros Hz Ht Hr Hin Hlt. subst vtcs_per_prim.
  apply Z.ltb_lt in Hlt. apply Z.eqb_neq in Ht, Hr.
  induction fuel as [|fuel IH]; cbn [PrimLoop]; rewrite Hlt; [reflexivity|].
  cbn [Z.to_nat AssembleGroup]. unfold ret, Dispatch. rewrite Ht, Hr.
  unfold ret. rewrite Z.add_0_r, (to_int_id vtx Hin). exact IH.
Qed.

End LoopFacts.

(** ** The claims on a draw call *)

Section DrawClaims.

Import TransformUnit.

Variable K : GEConstants.
Variable ext : Collaborators.
Variable g : GPUState.
Variable uninit : Z -> nat -> VertexData.
Variable vertices : list Z.
Variable indices : option (list Z).
Variable prim_type : Z.
Variable vertex_count : Z.
Variable vertex_type : Z.

Lemma vertices_per_prim_unsupported :
  prim_type <> GE_PRIM_POINTS K -> prim_type <> GE_PRIM_LINES K ->
  prim_type <> GE_PRIM_TRIANGLES K -> prim_type <> GE_PRIM_RECTANGLES K ->
  vertices_per_prim K prim_type = 0.
Proof.
  intros Hp Hl Ht Hr. unfold vertices_per_prim.
  apply Z.eqb_neq in Hp, Hl, Ht, Hr. now rewrite Hp, Hl, Ht, Hr.
Qed.

Lemma distinct_primitives (a b c d : Z) :
  NoDup [a; b; c; d] -> a <> c /\ a <> d /\ b <> c /\ b <> d.
Proof.
  intros H. inversion_clear H as [|? ? Ha H1].
  inversion_clear H1 as [|? ? Hb H2]. cbn in Ha, Hb.
  repeat split; intros Heq; subst; tauto.
Qed.

(** The draw call as the decoder's call followed by the outer loop. *)
Lemma SubmitPrimitive_unfold (fuel : nat) :
  let bounds := index_bounds ext indices vertex_count vertex_type in
  SubmitPrimitive K ext g uninit fuel vertices indices prim_type vertex_count
                  vertex_type
  = PrimLoop K ext g uninit
      (DecodeVerts ext vertices vertex_type (fst bounds) (snd bounds))
      indices
      (Z.land vertex_type (GE_VTYPE_IDX_MASK K) =? GE_VTYPE_IDX_16BIT K)
      prim_type vertex_count (vertices_per_prim K prim_type) fuel 0
      (mkSt 0 [EvDecodeVerts (fst bounds) (snd bounds)]).
Proof.
  intros bounds. unfold SubmitPrimitive. fold bounds. now destruct bounds.
Qed.

(** C2.  For a primitive type other than points, lines, triangles and
    rectangles the step of the outer loop stays 0.  With no vertex to draw
    the call returns, having done nothing but the decoder's call.  With one
    vertex or more it does not return: whatever the number of iterations
    allowed, the loop is still at vertex 0, and the decoder's call is the
    only event, so no vertex is read and no consumer is called. *)
Theorem unsupported_primitive_loops_forever :
  prim_type <> GE_PRIM_POINTS K -> prim_type <> GE_PRIM_LINES K ->
  prim_type <> GE_PRIM_TRIANGLES K -> prim_type <> GE_PRIM_RECTANGLES K ->
  let bounds := index_bounds ext indices vertex_count vertex_type in
  let s0 := mkSt 0 [EvDecodeVerts (fst bounds) (snd bounds)] in
  (vertex_count <= 0 ->
   forall fuel,
     SubmitPrimitive K ext g uninit fuel vertices indices prim_type vertex_count
                     vertex_type = Returned s0) /\
  (0 < vertex_count ->
   forall fuel,
     SubmitPrimitive K ext g uninit fuel vertices indices prim_type vertex_count
                     vertex_type = OutOfFuel s0).
Proof.
  intros Hp Hl Ht Hr bounds s0. split; intros Hcount fuel;
    rewrite SubmitPrimitive_unfold; fold bounds; fold s0.
  - destruct fuel; cbn [PrimLoop];
      destruct (Z.ltb_spec 0 vertex_count); try lia; reflexivity.
  - apply PrimLoop_stuck; try assumption.
    + now apply vertices_per_prim_unsupported.
    + int_range; lia.
Qed.

End DrawClaims.

(** C9.  A draw call of no vertex and no index buffer: [vertex_count - 1]
    in a [u16] is 65535, so the decoder is asked for the index range 0 to
    65535, which is 65536 vertices; the loop then has nothing to do. *)
Theorem empty_draw_decodes_whole_range
    (K : GEConstants) (ext : Collaborators) (g : GPUState)
    (uninit : Z -> nat -> VertexData) (fuel : nat) (vertices : list Z)
    (prim_type vertex_type : Z) :
  TransformUnit.index_bounds ext None 0 vertex_type = (0, 65535) /\
  TransformUnit.SubmitPrimitive K ext g uninit fuel vertices None prim_type 0
                                vertex_type
  = Returned (mkSt 0 [EvDecodeVerts 0 65535]) /\
  (let bounds := TransformUnit.index_bounds ext None 0 vertex_type in
   snd bounds - fst bounds + 1 = 65536).
Proof.
  split; [reflexivity|]. split; [|reflexivity].
  unfold TransformUnit.SubmitPrimitive.
  change (TransformUnit.index_bounds ext None 0 vertex_type) with (0, 65535).
  destruct fuel; reflexivity.
Qed.

(** A triangle strip (primitive type 4) of three vertices on the PSP's
    constants: a thousand iterations on, the loop has not returned. *)
Lemma unsupported_primitive_loops_forever_witness :
  TransformUnit.SubmitPrimitive psp_constants (example_ext true false)
    (example_state false) example_uninit 1000 [] None 4 3 0
  = OutOfFuel (mkSt 0 [EvDecodeVerts 0 2]).
Proof.
  assert (Hne : forall k, 4 <> k -> 4 <> k) by auto.
  destruct (unsupported_primitive_loops_forever psp_constants
              (example_ext true false) (example_state false) example_uninit
              [] None 4 3 0
              (Hne 0 ltac:(discriminate)) (Hne 1 ltac:(discriminate))
              (Hne 3 ltac:(discriminate)) (Hne 6 ltac:(discriminate)))
    as [_ Hloop].
  exact (Hloop ltac:(lia) 1000%nat).
Defined.

(** ** Further facts on the transform unit *)

Section DrawingRange.

Import TransformUnit.

Lemma div16_mod1024 (a : Z) : (a / 16) mod 1024 = (a mod 16384) / 16.
Proof.
  change 16384 with (16 * 1024).
  rewrite Z.rem_mul_r by lia.
  rewrite Z.mul_comm, Z.div_add by lia.
  rewrite (Z.div_small (a mod 16)) by (apply Z.mod_pos_bound; lia).
  reflexivity.
Qed.

Lemma mod32_mod14 (z : Z) : (z mod 2 ^ 32) mod 16384 = z mod 16384.
Proof.
  change 16384 with (2 ^ 14).
  rewrite <- !(land_low_bits _ 14) by lia.
  rewrite <- (land_low_bits z 32) by lia.
  rewrite <- Z.land_assoc. reflexivity.
Qed.

Lemma mod16_mod14 (z : Z) : (z mod 2 ^ 16) mod 16384 = z mod 16384.
Proof.
  change 16384 with (2 ^ 14).
  rewrite <- !(land_low_bits _ 14) by lia.
  rewrite <- (land_low_bits z 16) by lia.
  rewrite <- Z.land_assoc. reflexivity.
Qed.

(** One component of [ScreenToDrawing] without the wrap-around: the
    difference of coordinate and offset register, reduced modulo 16384 (1024
    pixels of 16 units) and divided by 16. *)
Lemma screen_to_drawing1_closed (coord offset : Z) :
  screen_to_drawing1 coord offset = ((coord - offset) mod 16384) / 16.
Proof.
  unfold screen_to_drawing1.
  rewrite land_0xffff, land_0x3ff.
  unfold Int.to_u32. rewrite mod32_mod16.
  rewrite div16_mod1024, mod32_mod14.
  rewrite to_u16_id.
  - f_equal.
    rewrite Zminus_mod, mod32_mod14, mod16_mod14, <- Zminus_mod. reflexivity.
  - pose proof (Z.mod_pos_bound (coord mod 2 ^ 32 - offset mod 2 ^ 16) 16384).
    split; [apply Z.div_pos; lia|].
    apply Z.div_lt_upper_bound; lia.
Qed.

(** X1.  Whatever the coordinate and the offset registers hold, each
    component of [ScreenToDrawing] is the difference of coordinate and offset
    taken modulo 16384 and divided by 16, rounded down: the unsigned
    wrap-around acts as arithmetic modulo 1024 pixels.  The result lies in
    [0, 1023]; the bits of an offset register above the low 14 do not
    matter. *)
Theorem ScreenToDrawing_closed_form (g : GPUState) (c : ScreenCoords) :
  let d := ScreenToDrawing g c in
  dx d = ((sx c - offsetx g) mod 16384) / 16 /\
  dy d = ((sy c - offsety g) mod 16384) / 16 /\
  0 <= dx d < 1024 /\ 0 <= dy d < 1024.
Proof.
  unfold ScreenToDrawing. cbn [dx dy].
  rewrite !screen_to_drawing1_closed.
  pose proof (Z.mod_pos_bound (sx c - offsetx g) 16384).
  pose proof (Z.mod_pos_bound (sy c - offsety g) 16384).
  repeat split; try (apply Z.div_pos; lia); apply Z.div_lt_upper_bound; lia.
Qed.

End DrawingRange.

Section VertexExtras.

Import TransformUnit.

Variable ext : Collaborators.
Variable g : GPUState.
Variable r : VertexReader.
Variable indices : option (list Z).
Variable indices_16bit : bool.
Variable vtx : Z.
Variable i : nat.
Variable d : VertexData.
Variable s : St.

(** The whole of one vertex outside of through mode. *)
Lemma AssembleVertex_transformed :
  isModeThrough g = false ->
  let index := vertex_index indices indices_16bit vtx i in
  exists v,
    AssembleVertex ext g r indices indices_16bit vtx i d s
    = (lighting ext g v,
       mkSt index
            (trace s ++ EvGoto index :: EvReadPos
               :: (if reads_uv g r then [EvReadUV] else [])
               ++ (if hasNormal r then [EvReadNrm] else [])
               ++ (if hasColor0 r then [EvReadColor0] else [])
               ++ (if hasColor1 r then [EvReadColor0] else [])
               ++ [EvLightingProcess v])) /\
    worldpos v = ModelToWorld g (pos_at r index) /\
    viewpos v = WorldToView g (worldpos v) /\
    clippos v = ViewToClip g (viewpos v) /\
    drawpos v = ScreenToDrawing g (ClipToScreen g (clippos v)) /\
    normal v = (if hasNormal r then nrm_at r index else normal d) /\
    worldnormal v
    = (if hasNormal r
       then let wn := Math3D.vec3_sub (ModelToWorld g (normal v))
                                      (translation (worldMatrix g)) in
            Math3D.vec3_div wn (Math3D.Length wn)
       else worldnormal d).
Proof.
  intros Hthrough index. unfold AssembleVertex, bind.
  rewrite ReadAttributes_spec. fold index. cbn [fst snd].
  unfold TransformVertex, Lighting_Process. rewrite Hthrough. cbn [negb].
  rewrite vec3_eta.
  eexists. split.
  - cbn [cursor trace]. f_equal. f_equal. rewrite <- app_assoc. cbn [app].
    do 3 f_equal. rewrite <- !app_assoc. reflexivity.
  - destruct (hasNormal r);
      cbn [set_drawpos set_clippos set_viewpos set_worldpos set_worldnormal
           worldpos viewpos clippos drawpos normal worldnormal];
      repeat split.
Qed.

(** X2.  Outside of through mode a vertex goes through the whole chain: its
    world, view and clip positions are [ModelToWorld], [WorldToView] and
    [ViewToClip] applied in turn to the decoded position, and its drawing
    coordinate is [ScreenToDrawing] of [ClipToScreen] of the clip position,
    so both components lie in [0, 1023] whatever the matrices and the
    position.  The world normal is written only when the format declares a
    normal.  [Lighting::Process] is called once, last, on the vertex so
    completed, and its result is what the slot holds. *)
Theorem transformed_vertex_goes_through_chain :
  isModeThrough g = false ->
  let res := AssembleVertex ext g r indices indices_16bit vtx i d s in
  let pos := pos_at r (cursor (snd res)) in
  exists v evs,
    fst res = lighting ext g v /\
    trace (snd res) = trace s ++ evs ++ [EvLightingProcess v] /\
    count is_Lighting evs = 0%nat /\
    worldpos v = ModelToWorld g pos /\
    viewpos v = WorldToView g (ModelToWorld g pos) /\
    clippos v = ViewToClip g (WorldToView g (ModelToWorld g pos)) /\
    drawpos v
    = ScreenToDrawing g
        (ClipToScreen g (ViewToClip g (WorldToView g (ModelToWorld g pos)))) /\
    0 <= dx (drawpos v) < 1024 /\ 0 <= dy (drawpos v) < 1024 /\
    (hasNormal r = false -> worldnormal v = worldnormal d).
Proof.
  intros Hthrough res pos.
  destruct (AssembleVertex_transformed Hthrough)
    as [v [Hres [Hw [Hv [Hc [Hd [_ Hwn]]]]]]].
  unfold pos, res. rewrite Hres. cbn [fst snd cursor trace].
  rewrite <- Hw, <- Hv, <- Hc.
  exists v.
  exists (EvGoto (vertex_index indices indices_16bit vtx i) :: EvReadPos
            :: (if reads_uv g r then [EvReadUV] else [])
            ++ (if hasNormal r then [EvReadNrm] else [])
            ++ (if hasColor0 r then [EvReadColor0] else [])
            ++ (if hasColor1 r then [EvReadColor0] else [])).
  split; [reflexivity|]. split.
  { f_equal. cbn [app]. do 2 f_equal. rewrite <- !app_assoc. reflexivity. }
  split.
  { destruct (reads_uv g r), (hasNormal r), (hasColor0 r), (hasColor1 r);
      reflexivity. }
  repeat (split; [assumption|]).
  destruct (ScreenToDrawing_closed_form g (ClipToScreen g (clippos v)))
    as [_ [_ [Hx Hy]]].
  rewrite Hd. repeat split; try apply Hx; try apply Hy.
  intros Hn. now rewrite Hn in Hwn.
Qed.

Lemma count_ReadColor0_reads (a b c e : bool) (l : list Event) :
  count is_ReadColor0
    (EvReadPos :: (if a then [EvReadUV] else [])
       ++ (if b then [EvReadNrm] else []) ++ (if c then [EvReadColor0] else [])
       ++ (if e then [EvReadColor0] else []) ++ l)
  = ((if c then 1 else 0) + (if e then 1 else 0) + count is_ReadColor0 l)%nat.
Proof. destruct a, b, c, e; reflexivity. Qed.

(** X3.  The colours of a vertex as [SubmitPrimitive] fills it.  A format
    without secondary colour gives [color1 = (0, 0, 0)].  A format with a
    primary colour gives [color0] as the four channels [ReadColor0] yields,
    each times 255 and truncated.  [ReadColor0] is called once for each of
    the two colours the format declares, so not at all on a format with
    neither. *)
Theorem vertex_colours :
  let res := AssembleVertex ext g r indices indices_16bit vtx i d s in
  let col := color0_at r (cursor (snd res)) in
  exists v,
    fst res = lit ext g v /\
    (hasColor1 r = false -> color1 v = mkVec3 0 0 0) /\
    (hasColor0 r = true ->
     color0 v = mkVec4 (F32.to_int (v4x col * F32.of_Z 255)%f32)
                       (F32.to_int (v4y col * F32.of_Z 255)%f32)
                       (F32.to_int (v4z col * F32.of_Z 255)%f32)
                       (F32.to_int (v4w col * F32.of_Z 255)%f32)) /\
    count is_ReadColor0 (trace (snd res))
    = (count is_ReadColor0 (trace s)
       + (if hasColor0 r then 1 else 0) + (if hasColor1 r then 1 else 0))%nat.
Proof.
  intros res col.
  destruct (AssembleVertex_spec ext g r indices indices_16bit vtx i d s)
    as [Hcur [v [Hv [_ [Hc0 [Hc1 Htr]]]]]].
  fold res in Hcur, Hv, Htr.
  exists v. split; [exact Hv|]. split; [|split].
  - intros H. now rewrite H in Hc1.
  - intros H. rewrite H in Hc0. unfold col. rewrite Hcur. exact Hc0.
  - rewrite Htr, count_app.
    change (count is_ReadColor0 (EvGoto ?x :: ?l)) with (count is_ReadColor0 l).
    rewrite count_ReadColor0_reads. destruct (isModeThrough g); cbn; lia.
Qed.

End VertexExtras.

(** A vertex at (10, 20.5, 0) under identity matrices, a viewport of scale 1
    and offsets of 16: the lighting step receives it at drawing coordinate
    (9, 19). *)
Lemma transformed_vertex_goes_through_chain_witness :
  exists v,
    fst (TransformUnit.AssembleVertex (example_ext true false)
           (example_state false) (example_reader true false) None false 0 0
           example_vertex (mkSt 0 []))
    = lighting (example_ext true false) (example_state false) v /\
    drawpos v = mkDrawing 9 19.
Proof.
  destruct (transformed_vertex_goes_through_chain (example_ext true false)
              (example_state false) (example_reader true false) None false 0 0
              example_vertex (mkSt 0 []) eq_refl)
    as [v [evs [Hres [_ [_ [_ [_ [_ [Hd _]]]]]]]]].
  exists v. split; [exact Hres|]. rewrite Hd. vm_compute. reflexivity.
Defined.

(** ** Further facts on the loops *)

Section LoopExtras.

Import TransformUnit.

Variable K : GEConstants.
Variable ext : Collaborators.
Variable g : GPUState.
Variable uninit : Z -> nat -> VertexData.
Variable r : VertexReader.
Variable indices : option (list Z).
Variable indices_16bit : bool.
Variable prim_type : Z.
Variable vertex_count : Z.
Variable vtcs_per_prim : Z.

Lemma gotos_app (a b : list Event) : gotos (a ++ b) = gotos a ++ gotos b.
Proof.
  induction a as [|e a IH]; [reflexivity|].
  destruct e; cbn; now rewrite IH.
Qed.

Lemma quads_app (a b : list Event) : quads (a ++ b) = quads a ++ quads b.
Proof.
  induction a as [|e a IH]; [reflexivity|].
  destruct e; cbn; now rewrite IH.
Qed.

(** What vertex events leave out. *)
Lemma vertex_events_only (evs : list Event) :
  Forall (fun e => is_vertex_event e = true) evs ->
  quads evs = [] /\
  count is_DecodeVerts evs = 0%nat /\
  count is_ProcessTriangle evs = 0%nat /\
  count is_ProcessQuad evs = 0%nat.
Proof.
  induction 1 as [|e evs He _ IH]; [repeat split|].
  destruct IH as [Hq [Hd [Ht Hr]]].
  destruct e; try discriminate; cbn; repeat split; assumption.
Qed.

Lemma AssembleVertex_trace (vtx : Z) (i : nat) (d : VertexData) (s : St) :
  exists evs,
    trace (snd (AssembleVertex ext g r indices indices_16bit vtx i d s))
    = trace s ++ evs /\
    Forall (fun e => is_vertex_event e = true) evs /\
    gotos evs = [vertex_index indices indices_16bit vtx i].
Proof.
  destruct (AssembleVertex_spec ext g r indices indices_16bit vtx i d s)
    as [_ [v [_ [_ [_ [_ Htr]]]]]].
  eexists. split; [exact Htr|].
  destruct (reads_uv g r), (hasNormal r), (hasColor0 r), (hasColor1 r),
    (isModeThrough g); split; repeat constructor.
Qed.

Lemma AssembleGroup_trace (vtx : Z) (n : nat) :
  forall (i : nat) (data : list VertexData) (s : St),
  exists evs,
    trace (snd (AssembleGroup ext g uninit r indices indices_16bit vtx n i data s))
    = trace s ++ evs /\
    Forall (fun e => is_vertex_event e = true) evs /\
    gotos evs = map (vertex_index indices indices_16bit vtx) (seq i n).
Proof.
  induction n as [|n IH]; intros i data s.
  - exists []. cbn. rewrite app_nil_r. repeat split. constructor.
  - cbn [AssembleGroup]. unfold bind.
    destruct (AssembleVertex_trace vtx i (nth i data (uninit vtx i)) s)
      as [e1 [H1 [Hv1 Hg1]]].
    destruct (AssembleVertex ext g r indices indices_16bit vtx i
                (nth i data (uninit vtx i)) s) as [d1 s1].
    cbn [snd] in H1.
    destruct (IH (S i) (update data i d1) s1) as [e2 [H2 [Hv2 Hg2]]].
    exists (e1 ++ e2). rewrite H2, H1, <- app_assoc.
    split; [reflexivity|]. split.
    + apply Forall_app. now split.
    + rewrite gotos_app, Hg1, Hg2. reflexivity.
Qed.

(** The record of slot [j] of the group at [vtx] is record [vtx + j] of the
    flat stream. *)
Lemma vertex_index_flat (vtx : Z) (j : nat) :
  0 <= vtx ->
  vertex_index indices indices_16bit vtx j
  = vertex_index indices indices_16bit 0 (Z.to_nat vtx + j).
Proof.
  intros Hvtx. unfold vertex_index.
  replace (0 + Z.of_nat (Z.to_nat vtx + j)) with (vtx + Z.of_nat j) by lia.
  reflexivity.
Qed.

Lemma group_gotos_flat (vtx : Z) (n : nat) :
  0 <= vtx ->
  map (vertex_index indices indices_16bit vtx) (seq 0 n)
  = map (vertex_index indices indices_16bit 0) (seq (Z.to_nat vtx) n).
Proof.
  intros Hvtx.
  rewrite <- (Nat.add_0_r (Z.to_nat vtx)) at 1.
  generalize 0%nat as i. induction n as [|n IH]; intros i; [reflexivity|].
  cbn [seq map]. rewrite vertex_index_flat by assumption.
  f_equal. rewrite IH. f_equal. f_equal. lia.
Qed.

(** A draw call that returns has visited the records of the flat stream in
    order, a whole group at a time, and called the consumer of its primitive
    type once per group. *)
Lemma PrimLoop_visits (fuel : nat) : forall (vtx : Z) (s s' : St),
  0 < vtcs_per_prim <= 3 ->
  vertex_count <= Int.INT_MAX - 3 ->
  0 <= vtx ->
  PrimLoop K ext g uninit r indices indices_16bit prim_type vertex_count
           vtcs_per_prim fuel vtx s = Returned s' ->
  let n := Z.to_nat (groups (vertex_count - vtx) vtcs_per_prim) in
  gotos (trace s')
  = gotos (trace s)
    ++ map (vertex_index indices indices_16bit 0)
           (seq (Z.to_nat vtx) (n * Z.to_nat vtcs_per_prim)) /\
  count is_ProcessTriangle (trace s')
  = Nat.add (count is_ProcessTriangle (trace s))
            (if prim_type =? GE_PRIM_TRIANGLES K then n else 0%nat) /\
  count is_ProcessQuad (trace s')
  = Nat.add (count is_ProcessQuad (trace s))
            (if prim_type =? GE_PRIM_TRIANGLES K then 0%nat
             else if prim_type =? GE_PRIM_RECTANGLES K then n else 0%nat).
Proof.
  induction fuel as [|fuel IH]; intros vtx s s' Hv Hmax Hvtx Hret;
    cbn [PrimLoop] in Hret;
    destruct (Z.ltb_spec vtx vertex_count) as [Hlt|Hge]; try discriminate.
  - inversion Hret; subst s'. rewrite groups_done by lia.
    cbn. rewrite app_nil_r.
    destruct (prim_type =? GE_PRIM_TRIANGLES K), (prim_type =? GE_PRIM_RECTANGLES K);
      repeat split; lia.
  - destruct (AssembleGroup_trace vtx (Z.to_nat vtcs_per_prim) 0
                [uninit vtx 0%nat; uninit vtx 1%nat; uninit vtx 2%nat] s)
      as [e1 [H1 [Hv1 Hg1]]].
    destruct (AssembleGroup ext g uninit r indices indices_16bit vtx
                (Z.to_nat vtcs_per_prim) 0
                [uninit vtx 0%nat; uninit vtx 1%nat; uninit vtx 2%nat] s)
      as [data' s1].
    cbn [snd] in H1.
    pose proof (Dispatch_events K prim_type data' s1) as H2.
    destruct (Dispatch K prim_type data' s1) as [u s2]. cbn [snd] in H2.
    rewrite to_int_id in Hret by (int_range; lia).
    pose proof (groups_step vtcs_per_prim (vertex_count - vtx)
                  ltac:(lia) ltac:(lia)) as Hg.
    pose proof (groups_nonneg vtcs_per_prim
                  (vertex_count - vtx - vtcs_per_prim) ltac:(lia)) as Hg0.
    replace (vertex_count - vtx - vtcs_per_prim)
      with (vertex_count - (vtx + vtcs_per_prim)) in Hg, Hg0 by lia.
    destruct (IH (vtx + vtcs_per_prim) s2 s' Hv Hmax ltac:(lia) Hret)
      as [Hgo [Ht Hq]].
    destruct (vertex_events_only e1 Hv1) as [_ [_ [Ht1 Hq1]]].
    cbv zeta. rewrite Hgo, Ht, Hq, H2. cbn [trace]. rewrite H1, Hg.
    rewrite (Z2Nat.inj_add 1 (groups (vertex_count - (vtx + vtcs_per_prim))
                                     vtcs_per_prim)) by lia.
    change (Z.to_nat 1) with 1%nat.
    rewrite !gotos_app, !count_app, Hg1, Ht1, Hq1.
    rewrite (group_gotos_flat vtx _ Hvtx).
    split; [|split].
    + rewrite <- !app_assoc. f_equal.
      replace (gotos (if prim_type =? GE_PRIM_TRIANGLES K
                      then [EvProcessTriangle data']
                      else if prim_type =? GE_PRIM_RECTANGLES K
                           then [EvProcessQuad data'] else []))
        with (@nil Z)
        by (destruct (prim_type =? GE_PRIM_TRIANGLES K),
                     (prim_type =? GE_PRIM_RECTANGLES K); reflexivity).
      cbn [app]. rewrite <- map_app. f_equal.
      replace (Z.to_nat (vtx + vtcs_per_prim))
        with (Z.to_nat vtx + Z.to_nat vtcs_per_prim)%nat by lia.
      rewrite <- seq_app. f_equal; lia.
    + destruct (prim_type =? GE_PRIM_TRIANGLES K), (prim_type =? GE_PRIM_RECTANGLES K);
        cbn; lia.
    + destruct (prim_type =? GE_PRIM_TRIANGLES K), (prim_type =? GE_PRIM_RECTANGLES K);
        cbn; lia.
  - inversion Hret; subst s'. rewrite groups_done by lia.
    cbn. rewrite app_nil_r.
    destruct (prim_type =? GE_PRIM_TRIANGLES K), (prim_type =? GE_PRIM_RECTANGLES K);
      repeat split; lia.
Qed.

(** The groups cover the vertices, with fewer than a group to spare. *)
Lemma groups_cover (n : Z) :
  0 < vtcs_per_prim -> 0 <= n ->
  n <= groups n vtcs_per_prim * vtcs_per_prim < n + vtcs_per_prim.
Proof.
  intros Hv Hn. unfold groups. rewrite Z.max_r by lia.
  pose proof (Z.div_mod (n + vtcs_per_prim - 1) vtcs_per_prim ltac:(lia)).
  pose proof (Z.mod_pos_bound (n + vtcs_per_prim - 1) vtcs_per_prim Hv).
  nia.
Qed.

End LoopExtras.

Section SlotFacts.

Import TransformUnit.

Lemma update_length (A : Type) (l : list A) : forall (i : nat) (x : A),
  length (update l i x) = length l.
Proof.
  induction l as [|h t IH]; intros [|i] x; cbn; auto.
Qed.

Lemma update_other (A : Type) (l : list A) : forall (i j : nat) (x : A),
  i <> j -> nth_error (update l i x) j = nth_error l j.
Proof.
  induction l as [|h t IH]; intros [|i] [|j] x Hij; cbn; auto; try lia.
Qed.

Variable K : GEConstants.
Variable ext : Collaborators.
Variable g : GPUState.
Variable uninit : Z -> nat -> VertexData.
Variable r : VertexReader.
Variable indices : option (list Z).
Variable indices_16bit : bool.
Variable prim_type : Z.
Variable vertex_count : Z.
Variable vtcs_per_prim : Z.

(** The inner loop writes the slots it goes through and no other. *)
Lemma AssembleGroup_slots (vtx : Z) (n : nat) :
  forall (i : nat) (data : list VertexData) (s : St),
  let res := AssembleGroup ext g uninit r indices indices_16bit vtx n i data s in
  length (fst res) = length data /\
  forall j, (j < i \/ i + n <= j)%nat -> nth_error (fst res) j = nth_error data j.
Proof.
  induction n as [|n IH]; intros i data s.
  - cbn. auto.
  - cbn [AssembleGroup]. unfold bind.
    destruct (AssembleVertex ext g r indices indices_16bit vtx i
                (nth i data (uninit vtx i)) s) as [d1 s1].
    destruct (IH (S i) (update data i d1) s1) as [Hlen Hslots].
    cbv zeta. split.
    + rewrite Hlen. apply update_length.
    + intros j Hj. rewrite Hslots by lia. apply update_other. lia.
Qed.

Lemma PrimLoop_quads (fuel : nat) : forall (vtx : Z) (s : St),
  (prim_type <> GE_PRIM_TRIANGLES K -> prim_type = GE_PRIM_RECTANGLES K ->
   vtcs_per_prim <= 2) ->
  Forall (third_slot_uninit uninit) (quads (trace s)) ->
  Forall (third_slot_uninit uninit)
    (quads (trace (state_of (PrimLoop K ext g uninit r indices indices_16bit
                                      prim_type vertex_count vtcs_per_prim
                                      fuel vtx s)))).
Proof.
  induction fuel as [|fuel IH]; intros vtx s Hper Hs; cbn [PrimLoop];
    destruct (vtx <? vertex_count); try exact Hs.
  destruct (AssembleGroup_trace ext g uninit r indices indices_16bit vtx
              (Z.to_nat vtcs_per_prim) 0
              [uninit vtx 0%nat; uninit vtx 1%nat; uninit vtx 2%nat] s)
    as [e1 [H1 [Hv1 _]]].
  destruct (AssembleGroup_slots vtx (Z.to_nat vtcs_per_prim) 0
              [uninit vtx 0%nat; uninit vtx 1%nat; uninit vtx 2%nat] s)
    as [Hlen Hslots].
  destruct (AssembleGroup ext g uninit r indices indices_16bit vtx
              (Z.to_nat vtcs_per_prim) 0
              [uninit vtx 0%nat; uninit vtx 1%nat; uninit vtx 2%nat] s)
    as [data' s1].
  cbn [fst snd] in H1, Hlen, Hslots.
  pose proof (Dispatch_events K prim_type data' s1) as H2.
  destruct (Dispatch K prim_type data' s1) as [u s2]. cbn [snd] in H2.
  apply IH; [exact Hper|]. rewrite H2. cbn [trace]. rewrite H1, !quads_app.
  destruct (vertex_events_only e1 Hv1) as [Hq _]. rewrite Hq, app_nil_r.
  apply Forall_app. split; [exact Hs|].
  destruct (Z.eqb_spec prim_type (GE_PRIM_TRIANGLES K)) as [Ht|Ht];
    [constructor|].
  destruct (Z.eqb_spec prim_type (GE_PRIM_RECTANGLES K)) as [Hr|Hr];
    [|constructor].
  cbn [quads]. constructor; [|constructor].
  split; [exact Hlen|]. exists vtx.
  rewrite Hslots; [reflexivity|]. specialize (Hper Ht Hr). lia.
Qed.

(** However far the outer loop gets, it has made no call of the decoder. *)
Lemma PrimLoop_extends (fuel : nat) : forall (vtx : Z) (s : St),
  exists evs,
    trace (state_of (PrimLoop K ext g uninit r indices indices_16bit prim_type
                              vertex_count vtcs_per_prim fuel vtx s))
    = trace s ++ evs /\
    count is_DecodeVerts evs = 0%nat.
Proof.
  induction fuel as [|fuel IH]; intros vtx s; cbn [PrimLoop];
    destruct (vtx <? vertex_count);
    try (exists []; cbn; rewrite app_nil_r; split; reflexivity).
  destruct (AssembleGroup_trace ext g uninit r indices indices_16bit vtx
              (Z.to_nat vtcs_per_prim) 0
              [uninit vtx 0%nat; uninit vtx 1%nat; uninit vtx 2%nat] s)
    as [e1 [H1 [Hv1 _]]].
  destruct (AssembleGroup ext g uninit r indices indices_16bit vtx
              (Z.to_nat vtcs_per_prim) 0
              [uninit vtx 0%nat; uninit vtx 1%nat; uninit vtx 2%nat] s)
    as [data' s1].
  cbn [snd] in H1.
  pose proof (Dispatch_events K prim_type data' s1) as H2.
  destruct (Dispatch K prim_type data' s1) as [u s2]. cbn [snd] in H2.
  destruct (IH (Int.to_int (vtx + vtcs_per_prim)) s2) as [e3 [H3 Hd3]].
  destruct (vertex_events_only e1 Hv1) as [_ [Hd1 _]].
  eexists. split.
  - rewrite H3, H2. cbn [trace]. rewrite H1, <- !app_assoc. reflexivity.
  - rewrite !count_app, Hd1, Hd3.
    destruct (prim_type =? GE_PRIM_TRIANGLES K), (prim_type =? GE_PRIM_RECTANGLES K);
      reflexivity.
Qed.

End SlotFacts.

(** ** Further facts on a draw call *)

Section DrawExtras.

Import TransformUnit.

Variable K : GEConstants.
Variable ext : Collaborators.
Variable g : GPUState.
Variable uninit : Z -> nat -> VertexData.
Variable vertices : list Z.
Variable indices : option (list Z).
Variable prim_type : Z.
Variable vertex_count : Z.
Variable vertex_type : Z.

Lemma vertices_per_prim_range : 0 <= vertices_per_prim K prim_type <= 3.
Proof.
  unfold vertices_per_prim.
  destruct (prim_type =? GE_PRIM_POINTS K); [lia|].
  destruct (prim_type =? GE_PRIM_LINES K); [lia|].
  destruct (prim_type =? GE_PRIM_TRIANGLES K); [lia|].
  destruct (prim_type =? GE_PRIM_RECTANGLES K); lia.
Qed.

Lemma to_u16_to_int (z : Z) : Int.to_u16 (Int.to_int z) = z mod 2 ^ 16.
Proof.
  unfold Int.to_u16, Int.to_int.
  rewrite (Z.mod_eq (z + 2 ^ 31) (2 ^ 32)) by lia.
  replace (z + 2 ^ 31 - 2 ^ 32 * ((z + 2 ^ 31) / 2 ^ 32) - 2 ^ 31)
    with (z + (- ((z + 2 ^ 31) / 2 ^ 32) * 2 ^ 16) * 2 ^ 16) by lia.
  apply Z_mod_plus_full.
Qed.

(** X4.  A draw call of a supported primitive type returns once it has gone
    through [n] groups, [n] the ceiling of [vertex_count / vtcs_per_prim].
    It moves the cursor to the records of entries 0, 1, 2, ... of the flat
    stream, in order, whole groups at a time: [n * vtcs_per_prim] records,
    which is [vertex_count] rounded up to a whole group.  Without an index
    buffer these are the records 0, 1, 2, ... themselves, so when
    [vertex_count] is not a multiple of the group size the record
    [vertex_count], one past the last vertex, is read. *)
Theorem vertices_are_visited_in_order :
  0 < vertices_per_prim K prim_type ->
  0 <= vertex_count <= Int.INT_MAX - 3 ->
  let per := vertices_per_prim K prim_type in
  let n := Z.to_nat (groups vertex_count per) in
  let indices_16bit :=
    Z.land vertex_type (GE_VTYPE_IDX_MASK K) =? GE_VTYPE_IDX_16BIT K in
  forall fuel, (n <= fuel)%nat ->
  exists s,
    SubmitPrimitive K ext g uninit fuel vertices indices prim_type vertex_count
                    vertex_type = Returned s /\
    gotos (trace s)
    = map (vertex_index indices indices_16bit 0) (seq 0 (n * Z.to_nat per)) /\
    vertex_count <= Z.of_nat (n * Z.to_nat per) < vertex_count + per /\
    (indices = None ->
     gotos (trace s) = map Z.of_nat (seq 0 (n * Z.to_nat per)) /\
     (vertex_count mod per <> 0 -> In vertex_count (gotos (trace s)))).
Proof.
  intros Hpos Hcount per n indices_16bit fuel Hfuel.
  pose proof vertices_per_prim_range as Hrange. fold per in Hpos, Hrange.
  rewrite SubmitPrimitive_unfold. fold per indices_16bit.
  set (bounds := index_bounds ext indices vertex_count vertex_type).
  set (rd := DecodeVerts ext vertices vertex_type (fst bounds) (snd bounds)).
  set (s0 := mkSt 0 [EvDecodeVerts (fst bounds) (snd bounds)]).
  destruct (PrimLoop_returns K ext g uninit rd indices indices_16bit prim_type
              vertex_count per fuel 0 s0)
    as [s [evs [Hret _]]]; try lia.
  { now rewrite Z.sub_0_r. }
  destruct (PrimLoop_visits K ext g uninit rd indices indices_16bit prim_type
              vertex_count per fuel 0 s0 s) as [Hgo _]; try lia; try assumption.
  rewrite Z.sub_0_r in Hgo. fold n in Hgo. cbn [s0 trace gotos app Z.to_nat] in Hgo.
  pose proof (groups_cover per vertex_count ltac:(lia) ltac:(lia)) as Hcover.
  assert (Hn : Z.of_nat (n * Z.to_nat per) = groups vertex_count per * per).
  { pose proof (groups_nonneg per vertex_count ltac:(lia)).
    unfold n. rewrite Nat2Z.inj_mul, !Z2Nat.id by lia. reflexivity. }
  exists s. split; [exact Hret|]. split; [exact Hgo|]. split; [lia|].
  intros Hnone.
  assert (Hflat : gotos (trace s) = map Z.of_nat (seq 0 (n * Z.to_nat per))).
  { rewrite Hgo. apply map_ext_in. intros k Hk. apply in_seq in Hk.
    subst indices. unfold vertex_index. rewrite Z.add_0_l.
    rewrite to_u32_id by (int_range; lia).
    apply to_int_id. int_range. lia. }
  split; [exact Hflat|]. intros Hmod.
  rewrite Hflat. apply in_map_iff. exists (Z.to_nat vertex_count).
  split; [lia|]. apply in_seq.
  assert (groups vertex_count per * per <> vertex_count).
  { intros Heq. apply Hmod. rewrite <- Heq. apply Z_mod_mult. }
  lia.
Qed.

(** X5.  With the four primitive constants distinct, a draw call of
    triangles returns having called [ProcessTriangle] once per group of
    three, the last group included when [vertex_count] is not a multiple of
    three, and [ProcessQuad] never; a draw call of rectangles returns having
    called [ProcessQuad] once per group of two and [ProcessTriangle]
    never. *)
Theorem one_consumer_call_per_group :
  NoDup [GE_PRIM_POINTS K; GE_PRIM_LINES K; GE_PRIM_TRIANGLES K;
         GE_PRIM_RECTANGLES K] ->
  vertex_count <= Int.INT_MAX - 3 ->
  (prim_type = GE_PRIM_TRIANGLES K ->
   forall fuel, (Z.to_nat (groups vertex_count 3) <= fuel)%nat ->
   exists s,
     SubmitPrimitive K ext g uninit fuel vertices indices prim_type vertex_count
                     vertex_type = Returned s /\
     count is_ProcessTriangle (trace s) = Z.to_nat (groups vertex_count 3) /\
     count is_ProcessQuad (trace s) = 0%nat) /\
  (prim_type = GE_PRIM_RECTANGLES K ->
   forall fuel, (Z.to_nat (groups vertex_count 2) <= fuel)%nat ->
   exists s,
     SubmitPrimitive K ext g uninit fuel vertices indices prim_type vertex_count
                     vertex_type = Returned s /\
     count is_ProcessQuad (trace s) = Z.to_nat (groups vertex_count 2) /\
     count is_ProcessTriangle (trace s) = 0%nat).
Proof.
  intros Hdistinct Hmax.
  destruct (distinct_primitives uninit 0 _ _ _ _ Hdistinct)
    as [Hpt [Hpr [Hlt Hlr]]].
  assert (Htr : GE_PRIM_TRIANGLES K <> GE_PRIM_RECTANGLES K).
  { inversion_clear Hdistinct as [|? ? _ H1]. inversion_clear H1 as [|? ? _ H2].
    inversion_clear H2 as [|? ? H3 _]. intros Heq. apply H3. left.
    congruence. }
  set (i16 := Z.land vertex_type (GE_VTYPE_IDX_MASK K) =? GE_VTYPE_IDX_16BIT K).
  set (bounds := index_bounds ext indices vertex_count vertex_type).
  set (rd := DecodeVerts ext vertices vertex_type (fst bounds) (snd bounds)).
  set (s0 := mkSt 0 [EvDecodeVerts (fst bounds) (snd bounds)]).
  split; intros Hprim fuel Hfuel; rewrite SubmitPrimitive_unfold;
    fold bounds; fold rd; fold s0; fold i16.
  - assert (Hper : vertices_per_prim K prim_type = 3).
    { unfold vertices_per_prim. subst prim_type.
      destruct (Z.eqb_spec (GE_PRIM_TRIANGLES K) (GE_PRIM_POINTS K)); [congruence|].
      destruct (Z.eqb_spec (GE_PRIM_TRIANGLES K) (GE_PRIM_LINES K)); [congruence|].
      now rewrite Z.eqb_refl. }
    rewrite Hper.
    destruct (PrimLoop_returns K ext g uninit rd indices i16 prim_type
                vertex_count 3 fuel 0 s0)
      as [s [evs [Hret _]]]; try lia.
    { now rewrite Z.sub_0_r. }
    destruct (PrimLoop_visits K ext g uninit rd indices i16 prim_type
                vertex_count 3 fuel 0 s0 s) as [_ [Ht Hq]]; try lia;
      try assumption.
    rewrite Z.sub_0_r in Ht, Hq. subst prim_type.
    rewrite Z.eqb_refl in Ht, Hq.
    exists s. split; [exact Hret|]. split; [exact Ht|exact Hq].
  - assert (Hper : vertices_per_prim K prim_type = 2).
    { unfold vertices_per_prim. subst prim_type.
      destruct (Z.eqb_spec (GE_PRIM_RECTANGLES K) (GE_PRIM_POINTS K)); [congruence|].
      destruct (Z.eqb_spec (GE_PRIM_RECTANGLES K) (GE_PRIM_LINES K)); [congruence|].
      destruct (Z.eqb_spec (GE_PRIM_RECTANGLES K) (GE_PRIM_TRIANGLES K)); [congruence|].
      now rewrite Z.eqb_refl. }
    rewrite Hper.
    destruct (PrimLoop_returns K ext g uninit rd indices i16 prim_type
                vertex_count 2 fuel 0 s0)
      as [s [evs [Hret _]]]; try lia.
    { now rewrite Z.sub_0_r. }
    destruct (PrimLoop_visits K ext g uninit rd indices i16 prim_type
                vertex_count 2 fuel 0 s0 s) as [_ [Ht Hq]]; try lia;
      try assumption.
    rewrite Z.sub_0_r in Ht, Hq. subst prim_type.
    rewrite Z.eqb_refl in Hq.
    destruct (Z.eqb_spec (GE_PRIM_RECTANGLES K) (GE_PRIM_TRIANGLES K));
      [congruence|].
    exists s. split; [exact Hret|]. split; [exact Hq|exact Ht].
Qed.

(** X6.  The decoder is called once per draw call, before anything else,
    however far the call gets.  With an index buffer it is given the bounds
    [GetIndexBounds] returns.  Without one it is given 0 and
    [vertex_count - 1] reduced modulo 65536: the last vertex for 1 to 65536
    vertices, and a record before the last vertex for more. *)
Theorem decoder_is_called_once (fuel : nat) :
  let bounds := index_bounds ext indices vertex_count vertex_type in
  (exists evs,
     trace (state_of (SubmitPrimitive K ext g uninit fuel vertices indices
                                      prim_type vertex_count vertex_type))
     = EvDecodeVerts (fst bounds) (snd bounds) :: evs /\
     count is_DecodeVerts evs = 0%nat) /\
  (forall ind, indices = Some ind ->
     bounds = GetIndexBounds ext ind vertex_count vertex_type) /\
  (indices = None ->
     bounds = (0, (vertex_count - 1) mod 2 ^ 16) /\
     (1 <= vertex_count <= 2 ^ 16 -> snd bounds = vertex_count - 1) /\
     (2 ^ 16 < vertex_count -> 0 <= snd bounds < vertex_count - 1)).
Proof.
  intros bounds. split; [|split].
  - rewrite SubmitPrimitive_unfold. fold bounds.
    destruct (PrimLoop_extends K ext g uninit
                (DecodeVerts ext vertices vertex_type (fst bounds) (snd bounds))
                indices
                (Z.land vertex_type (GE_VTYPE_IDX_MASK K) =? GE_VTYPE_IDX_16BIT K)
                prim_type vertex_count (vertices_per_prim K prim_type) fuel 0
                (mkSt 0 [EvDecodeVerts (fst bounds) (snd bounds)]))
      as [evs [Htr Hd]].
    exists evs. split; [exact Htr|exact Hd].
  - intros ind Hind. unfold bounds, index_bounds. now rewrite Hind.
  - intros Hnone.
    assert (Hb : bounds = (0, (vertex_count - 1) mod 2 ^ 16)).
    { unfold bounds, index_bounds. rewrite Hnone, to_u16_to_int. reflexivity. }
    rewrite Hb. cbn [snd]. split; [reflexivity|]. split.
    + intros H. apply Z.mod_small. lia.
    + intros H. pose proof (Z.mod_pos_bound (vertex_count - 1) (2 ^ 16)). lia.
Qed.

(** X7.  Every group handed to [ProcessQuad] has three slots of which the
    third was never written: a rectangle fills two, and the third is as the
    default constructor of [VertexData] left it. *)
Theorem ProcessQuad_third_slot_uninitialised (fuel : nat) :
  Forall (third_slot_uninit uninit)
    (quads (trace (state_of (SubmitPrimitive K ext g uninit fuel vertices
                                             indices prim_type vertex_count
                                             vertex_type)))).
Proof.
  rewrite SubmitPrimitive_unfold. cbv zeta.
  apply PrimLoop_quads; [|constructor].
  intros Ht Hr. unfold vertices_per_prim.
  destruct (prim_type =? GE_PRIM_POINTS K); [lia|].
  destruct (prim_type =? GE_PRIM_LINES K); [lia|].
  apply Z.eqb_neq in Ht. rewrite Ht.
  destruct (prim_type =? GE_PRIM_RECTANGLES K); lia.
Qed.

End DrawExtras.

(** Four vertices drawn as triangles, without an index buffer: two groups,
    and the records 0 to 5 are read, two of them past the last vertex. *)
Lemma vertices_are_visited_in_order_witness :
  exists s,
    TransformUnit.SubmitPrimitive psp_constants (example_ext true false)
      (example_state false) example_uninit 2 [] None 3 4 0 = Returned s /\
    gotos (trace s) = [0; 1; 2; 3; 4; 5].
Proof.
  assert (Hpos : 0 < TransformUnit.vertices_per_prim psp_constants 3)
    by (vm_compute; reflexivity).
  assert (Hcount : 0 <= 4 <= Int.INT_MAX - 3) by (int_range; lia).
  destruct (vertices_are_visited_in_order psp_constants (example_ext true false)
              (example_state false) example_uninit [] None 3 4 0 Hpos Hcount
              2%nat ltac:(vm_compute; lia))
    as [s [Hret [_ [_ Hflat]]]].
  exists s. split; [exact Hret|].
  destruct (Hflat eq_refl) as [Hgo _]. rewrite Hgo. vm_compute. reflexivity.
Defined.

(** Twelve vertices drawn as triangles: four calls of [ProcessTriangle]. *)
Lemma one_consumer_call_per_group_witness :
  exists s,
    TransformUnit.SubmitPrimitive psp_constants (example_ext true false)
      (example_state false) example_uninit 4 [] None 3 12 0 = Returned s /\
    count is_ProcessTriangle (trace s) = 4%nat /\
    count is_ProcessQuad (trace s) = 0%nat.
Proof.
  assert (Hdistinct : NoDup [GE_PRIM_POINTS psp_constants;
                             GE_PRIM_LINES psp_constants;
                             GE_PRIM_TRIANGLES psp_constants;
                             GE_PRIM_RECTANGLES psp_constants])
    by (repeat constructor; cbn; intuition discriminate).
  assert (Hmax : 12 <= Int.INT_MAX - 3) by (int_range; lia).
  destruct (one_consumer_call_per_group psp_constants (example_ext true false)
              (example_state false) example_uninit [] None 3 12 0
              Hdistinct Hmax) as [Htri _].
  destruct (Htri eq_refl 4%nat ltac:(vm_compute; lia)) as [s [Hret [Ht Hq]]].
  exists s. split; [exact Hret|]. split; [|exact Hq].
  rewrite Ht. vm_compute. reflexivity.
Defined.

(** ** Further facts on the thread pool *)

Section PoolExtras.

Import ThreadPool.

Lemma update_hit (A : Type) (l : list A) : forall (i : nat) (x : A),
  (i < length l)%nat -> nth_error (update l i x) i = Some x.
Proof.
  induction l as [|h t IH]; intros [|i] x Hi; cbn in *; try lia; auto.
  apply IH. lia.
Qed.

(** [on_worker] changes worker [i], if there is one, and nothing else. *)
Lemma on_worker_spec (p : ThreadPool) (i : nat)
    (f : LoopWorkerThread -> LoopWorkerThread) :
  numThreads_ (on_worker p i f) = numThreads_ p /\
  workersStarted (on_worker p i f) = workersStarted p /\
  length (workers (on_worker p i f)) = length (workers p) /\
  forall j w, nth_error (workers p) j = Some w ->
    nth_error (workers (on_worker p i f)) j
    = Some (if Nat.eqb j i then f w else w).
Proof.
  unfold on_worker. destruct (nth_error (workers p) i) as [wi|] eqn:Hi.
  - cbn [numThreads_ workersStarted workers]. rewrite update_length.
    repeat split. intros j w Hj.
    destruct (Nat.eqb_spec j i) as [->|Hne].
    + rewrite update_hit by (apply nth_error_Some; congruence). congruence.
    + rewrite update_other by auto. exact Hj.
  - repeat split. intros j w Hj.
    destruct (Nat.eqb_spec j i) as [->|Hne]; congruence.
Qed.

(** The dispatch loop gives one job to each of workers [i] to [i + n - 1]
    and leaves the others as they are. *)
Lemma dispatch_workers (n : nat) : forall (i : nat) (chunk s : Z) p tr,
  let p' := snd (fst (dispatch n i chunk s p tr)) in
  numThreads_ p' = numThreads_ p /\
  workersStarted p' = workersStarted p /\
  length (workers p') = length (workers p) /\
  forall j w, nth_error (workers p) j = Some w ->
    exists w', nth_error (workers p') j = Some w' /\
      jobsDone w' = jobsDone w /\
      ((i <= j < i + n)%nat -> jobsTarget w' = Int.to_int (jobsDone w + 1)) /\
      (~ (i <= j < i + n)%nat -> w' = w).
Proof.
  induction n as [|n IH]; intros i chunk s p tr.
  - cbn. repeat split. intros j w Hj. exists w. repeat split; auto. lia.
  - cbn [dispatch].
    set (p1 := on_worker p i (fun w => Process w s (Int.to_int (s + chunk)))).
    destruct (on_worker_spec p i (fun w => Process w s (Int.to_int (s + chunk))))
      as [Hn1 [Hs1 [Hl1 Hw1]]]. fold p1 in Hn1, Hs1, Hl1, Hw1.
    destruct (IH (S i) chunk (Int.to_int (s + chunk)) p1
                 (tr ++ [EvProcess i s (Int.to_int (s + chunk))]))
      as [Hn2 [Hs2 [Hl2 Hw2]]].
    cbv zeta. repeat split; try congruence.
    intros j w Hj. specialize (Hw1 j w Hj).
    destruct (Hw2 j _ Hw1) as [w' [Hj' [Hd [Hin Hout]]]].
    exists w'. split; [exact Hj'|].
    destruct (Nat.eqb_spec j i) as [->|Hne].
    + rewrite Hout in * by lia. cbn [Process jobsDone jobsTarget].
      repeat split; auto. lia.
    + repeat split; auto.
      * intros Hr. apply Hin. lia.
      * intros Hr. apply Hout. lia.
Qed.

(** The wait loop lets each of workers [i] to [i + n - 1] count its pending
    job done and leaves the others as they are. *)
Lemma wait_all_workers (n : nat) : forall (i : nat) p tr,
  let p' := fst (wait_all n i p tr) in
  numThreads_ p' = numThreads_ p /\
  workersStarted p' = workersStarted p /\
  length (workers p') = length (workers p) /\
  forall j w, nth_error (workers p) j = Some w ->
    nth_error (workers p') j
    = Some (if (i <=? j)%nat && (j <? i + n)%nat then WaitForCompletion w else w).
Proof.
  induction n as [|n IH]; intros i p tr.
  - cbn [wait_all fst]. repeat split. intros j w Hj. rewrite Hj, Nat.add_0_r.
    destruct (i <=? j)%nat eqn:H1, (j <? i)%nat eqn:H2; try reflexivity.
    apply Nat.leb_le in H1. apply Nat.ltb_lt in H2. lia.
  - cbn [wait_all].
    destruct (on_worker_spec p i WaitForCompletion) as [Hn1 [Hs1 [Hl1 Hw1]]].
    destruct (IH (S i) (on_worker p i WaitForCompletion)
                 (tr ++ [EvWaitForCompletion i])) as [Hn2 [Hs2 [Hl2 Hw2]]].
    cbv zeta. repeat split; try congruence.
    intros j w Hj. rewrite (Hw2 j _ (Hw1 j w Hj)). f_equal.
    destruct (Nat.eqb_spec j i) as [->|Hne].
    + replace (S i <=? i)%nat with false by (symmetry; apply Nat.leb_gt; lia).
      rewrite Nat.leb_refl.
      replace (i <? i + S n)%nat with true by (symmetry; apply Nat.ltb_lt; lia).
      reflexivity.
    + destruct (S i <=? j)%nat eqn:H1, (j <? S i + n)%nat eqn:H2,
               (i <=? j)%nat eqn:H3, (j <? i + S n)%nat eqn:H4;
        try reflexivity; exfalso;
        rewrite ?Nat.leb_le, ?Nat.leb_gt, ?Nat.ltb_lt, ?Nat.ltb_ge in *; lia.
Qed.

Lemma nth_error_repeat (A : Type) (x : A) (n j : nat) (y : A) :
  nth_error (repeat x n) j = Some y -> y = x.
Proof.
  intros H. apply nth_error_In in H. now apply repeat_spec in H.
Qed.

(** The workers of a pool after [StartWorkers]. *)
Lemma StartWorkers_shape (n : Z) (b : bool) (p : ThreadPool) :
  pool_shape n b p -> 1 <= n -> pool_shape n true (StartWorkers p).
Proof.
  intros [Hn [Hs [Hl Hlast]]] Hpos. unfold StartWorkers. rewrite Hs.
  destruct b; [repeat split; auto|].
  apply length_zero_iff_nil in Hl. rewrite Hl, Hn.
  repeat split; cbn [numThreads_ workersStarted workers app].
  - apply repeat_length.
  - intros w Hw. now apply nth_error_repeat in Hw.
Qed.

(** One call of [ParallelLoop] keeps the shape of the pool; the workers are
    started by the first call that is parallelised. *)
Lemma ParallelLoop_shape (n : Z) (b : bool) (p : ThreadPool) (lower upper : Z) :
  pool_shape n b p -> 1 <= n ->
  pool_shape n (b || parallelised n (lower, upper))
             (fst (ParallelLoop p lower upper)).
Proof.
  intros Hshape Hpos. unfold ParallelLoop, parallelised. cbn [fst snd].
  destruct Hshape as [Hn [Hs [Hl Hlast]]]. rewrite Hn.
  destruct (Int.to_int (upper - lower) >=? n * 2).
  2: { rewrite orb_false_r. repeat split; auto. }
  rewrite orb_true_r.
  destruct (StartWorkers_shape n b p (conj Hn (conj Hs (conj Hl Hlast))) Hpos)
    as [Hn1 [Hs1 [Hl1 Hlast1]]].
  rewrite Hn1.
  set (m := Z.to_nat (n - 1)) in *.
  pose proof (dispatch_workers m 0 (Z.quot (Int.to_int (upper - lower)) n) lower
                (StartWorkers p) []) as Hd.
  destruct (dispatch m 0 (Z.quot (Int.to_int (upper - lower)) n) lower
              (StartWorkers p) []) as [[s' p2] tr2].
  cbn [fst snd] in Hd. destruct Hd as [Hn2 [Hs2 [Hl2 Hw2]]].
  pose proof (wait_all_workers m 0 p2 (tr2 ++ [EvLoop s' upper])) as Hw.
  cbv zeta in Hw. destruct Hw as [Hn3 [Hs3 [Hl3 Hw3]]].
  cbv beta iota.
  repeat split; try congruence.
  intros w Hw.
  assert (Hm : (m < length (workers (StartWorkers p)))%nat).
  { rewrite Hl1. unfold m. lia. }
  destruct (nth_error (workers (StartWorkers p)) m) as [w1|] eqn:H1;
    [|apply nth_error_None in H1; lia].
  destruct (Hw2 m w1 H1) as [w2 [H2 [_ [_ Hout]]]].
  fold m in Hw. rewrite (Hw3 m w2 H2) in Hw.
  replace (m <? 0 + m)%nat with false in Hw
    by (symmetry; apply Nat.ltb_ge; lia).
  rewrite andb_false_r in Hw. inversion Hw; subst w.
  rewrite Hout by lia. apply Hlast1. reflexivity.
Qed.

(** One call of [ParallelLoop] leaves no job pending, and adds one job to
    the count of each of workers 0 to [n - 2] when it is parallelised. *)
Lemma ParallelLoop_counters (n k : Z) (b : bool) (p : ThreadPool)
    (lower upper : Z) :
  pool_shape n b p -> pool_counters n k p ->
  1 <= n -> 0 <= k < Int.INT_MAX -> (b = false -> k = 0) ->
  pool_counters n (k + (if parallelised n (lower, upper) then 1 else 0))
                (fst (ParallelLoop p lower upper)).
Proof.
  intros Hshape Hcount Hpos Hk Hk0. unfold ParallelLoop, parallelised.
  cbn [fst snd]. destruct Hshape as [Hn [Hs [Hl Hlast]]]. rewrite Hn.
  destruct (Int.to_int (upper - lower) >=? n * 2).
  2: { rewrite Z.add_0_r. exact Hcount. }
  assert (Hc1 : pool_counters n k (StartWorkers p)).
  { unfold StartWorkers. rewrite Hs. destruct b; [exact Hcount|].
    apply length_zero_iff_nil in Hl. rewrite Hl, Hn.
    cbn [app]. intros j w Hw. cbn [workers] in Hw.
    apply nth_error_repeat in Hw. subst w. cbn. rewrite (Hk0 eq_refl).
    now destruct (Z.of_nat j <? n - 1). }
  destruct (StartWorkers_shape n b p (conj Hn (conj Hs (conj Hl Hlast))) Hpos)
    as [Hn1 [Hs1 [Hl1 Hlast1]]].
  rewrite Hn1.
  set (m := Z.to_nat (n - 1)) in *.
  pose proof (dispatch_workers m 0 (Z.quot (Int.to_int (upper - lower)) n) lower
                (StartWorkers p) []) as Hd.
  destruct (dispatch m 0 (Z.quot (Int.to_int (upper - lower)) n) lower
              (StartWorkers p) []) as [[s' p2] tr2].
  cbn [fst snd] in Hd. destruct Hd as [Hn2 [Hs2 [Hl2 Hw2]]].
  pose proof (wait_all_workers m 0 p2 (tr2 ++ [EvLoop s' upper])) as Hw.
  cbv zeta in Hw. destruct Hw as [Hn3 [Hs3 [Hl3 Hw3]]].
  cbv beta iota.
  intros j w Hw.
  assert (Hj : (j < length (workers (StartWorkers p)))%nat).
  { rewrite <- Hl2, <- Hl3. apply nth_error_Some. congruence. }
  destruct (nth_error (workers (StartWorkers p)) j) as [w1|] eqn:H1;
    [|apply nth_error_None in H1; lia].
  destruct (Hc1 j w1 H1) as [Hidle Hdone].
  destruct (Hw2 j w1 H1) as [w2 [H2 [Hd2 [Hin Hout]]]].
  rewrite (Hw3 j w2 H2) in Hw. inversion Hw; subst w. clear Hw.
  cbn [Nat.leb Nat.add andb].
  destruct (Nat.ltb_spec j m) as [Hlt|Hge].
  - assert (Hz : (Z.of_nat j <? n - 1) = true) by (apply Z.ltb_lt; lia).
    rewrite Hz in *.
    assert (Ht2 : jobsTarget w2 = k + 1).
    { rewrite Hin by lia. rewrite Hdone. apply to_int_id. int_range. lia. }
    unfold WaitForCompletion. rewrite Hd2, Ht2, Hdone.
    replace (k <? k + 1) with true by (symmetry; apply Z.ltb_lt; lia).
    cbn [jobsDone jobsTarget].
    rewrite to_int_id by (int_range; lia). split; reflexivity.
  - assert (Hz : (Z.of_nat j <? n - 1) = false) by (apply Z.ltb_ge; lia).
    rewrite Hz in *. rewrite Hout by lia. split; assumption.
Qed.

Lemma loops_cons (p : ThreadPool) (c : Z * Z) (calls : list (Z * Z)) :
  loops p (c :: calls) = loops (fst (ParallelLoop p (fst c) (snd c))) calls.
Proof. reflexivity. Qed.

Lemma loops_shape (n : Z) (calls : list (Z * Z)) : forall (b : bool) p,
  pool_shape n b p -> 1 <= n ->
  pool_shape n (b || existsb (parallelised n) calls) (loops p calls).
Proof.
  induction calls as [|[lower upper] calls IH]; intros b p Hshape Hpos.
  - cbn. now rewrite orb_false_r.
  - rewrite loops_cons. cbn [existsb fst snd]. rewrite orb_assoc.
    apply IH; [|exact Hpos]. now apply ParallelLoop_shape.
Qed.

Lemma loops_counters (n : Z) (calls : list (Z * Z)) : forall (b : bool) k p,
  pool_shape n b p -> pool_counters n k p ->
  1 <= n -> 0 <= k -> k + Z.of_nat (length calls) <= Int.INT_MAX ->
  (b = false -> k = 0) ->
  pool_counters n (k + Z.of_nat (length (filter (parallelised n) calls)))
                (loops p calls).
Proof.
  induction calls as [|[lower upper] calls IH];
    intros b k p Hshape Hcount Hpos Hk Hmax Hk0.
  - cbn. now rewrite Z.add_0_r.
  - rewrite loops_cons. cbn [filter fst snd length] in *.
    pose proof (ParallelLoop_shape n b p lower upper Hshape Hpos) as Hshape'.
    pose proof (ParallelLoop_counters n k b p lower upper Hshape Hcount Hpos
                  ltac:(lia) Hk0) as Hcount'.
    destruct (parallelised n (lower, upper)) eqn:Hpar.
    + cbn [length]. rewrite Nat2Z.inj_succ.
      replace (k + Z.succ (Z.of_nat (length (filter (parallelised n) calls))))
        with (k + 1 + Z.of_nat (length (filter (parallelised n) calls))) by lia.
      apply (IH (b || true)); try assumption; try lia.
    + rewrite Z.add_0_r in Hcount'.
      apply (IH (b || false)); try assumption; try lia.
      rewrite orb_false_r. exact Hk0.
Qed.

Lemma new_shape (numThreads : Z) :
  pool_shape (numThreads_ (ThreadPool.new numThreads)) false
             (ThreadPool.new numThreads) /\
  1 <= numThreads_ (ThreadPool.new numThreads) <= 8.
Proof.
  split.
  - repeat split. intros w Hw. cbn [ThreadPool.new workers] in Hw.
    now destruct (Z.to_nat _) in Hw.
  - unfold ThreadPool.new. cbn [numThreads_].
    destruct (Z.leb_spec numThreads 0); [|destruct (Z.gtb_spec numThreads 8)];
      lia.
Qed.

(** X8.  The workers of a pool are created by the first call of
    [ParallelLoop] that is parallelised and by no other: after any series of
    calls the pool has no worker if every loop was too small for its size,
    and exactly [numThreads_] workers otherwise, and [numThreads_] is what
    the constructor set. *)
Theorem workers_are_started_once (numThreads : Z) (calls : list (Z * Z)) :
  let n := numThreads_ (ThreadPool.new numThreads) in
  let p := loops (ThreadPool.new numThreads) calls in
  numThreads_ p = n /\
  workersStarted p = existsb (parallelised n) calls /\
  length (workers p)
  = (if existsb (parallelised n) calls then Z.to_nat n else 0%nat).
Proof.
  intros n p. destruct (new_shape numThreads) as [Hshape Hn].
  destruct (loops_shape n calls false _ Hshape ltac:(unfold n; lia))
    as [H1 [H2 [H3 _]]].
  cbn [orb] in *. auto.
Qed.

(** X9.  The last worker of a pool is never given a job: whatever calls of
    [ParallelLoop] were made, worker [numThreads_ - 1], once created, is as
    it was created, with no job targeted and none done.  A pool of one
    worker starts its worker and runs every loop on the calling thread. *)
Theorem last_worker_is_never_used (numThreads : Z) (calls : list (Z * Z)) :
  let n := numThreads_ (ThreadPool.new numThreads) in
  let p := loops (ThreadPool.new numThreads) calls in
  (forall w, nth_error (workers p) (Z.to_nat (n - 1)) = Some w ->
             w = idle_worker) /\
  (n = 1 -> workers p = [] \/ workers p = [idle_worker]).
Proof.
  intros n p. destruct (new_shape numThreads) as [Hshape Hn].
  destruct (loops_shape n calls false _ Hshape ltac:(unfold n; lia))
    as [_ [_ [Hl Hlast]]].
  fold p in Hl, Hlast. split; [exact Hlast|].
  intros H1. rewrite H1 in *. cbn [orb] in Hl.
  destruct (existsb (parallelised 1) calls).
  - right. destruct (workers p) as [|w [|w' l]]; try discriminate.
    f_equal. apply Hlast. reflexivity.
  - left. now apply length_zero_iff_nil.
Qed.

(** X10.  No job is pending between calls of [ParallelLoop]: after a series
    of calls every worker has done the jobs it was given
    ([jobsDone = jobsTarget]), which for workers 0 to [numThreads_ - 2] is
    one job per parallelised call, and for the last worker none. *)
Theorem no_job_is_pending_between_loops (numThreads : Z) (calls : list (Z * Z)) :
  Z.of_nat (length calls) <= Int.INT_MAX ->
  let n := numThreads_ (ThreadPool.new numThreads) in
  let p := loops (ThreadPool.new numThreads) calls in
  let k := Z.of_nat (length (filter (parallelised n) calls)) in
  forall j w, nth_error (workers p) j = Some w ->
    jobsDone w = jobsTarget w /\
    jobsDone w = (if Z.of_nat j <? n - 1 then k else 0).
Proof.
  intros Hlen n p k. destruct (new_shape numThreads) as [Hshape Hn].
  apply (loops_counters n calls false 0 _ Hshape); try lia; auto.
  intros j w Hw. cbn [ThreadPool.new workers] in Hw. now destruct j.
Qed.

(** The calls of [loop] a parallelised [ParallelLoop] makes. *)
Lemma ParallelLoop_calls (p : ThreadPool) (lower upper : Z) :
  1 <= numThreads_ p ->
  Int.in_int lower -> Int.in_int upper -> Int.in_int (upper - lower) ->
  2 * numThreads_ p <= upper - lower ->
  let n := numThreads_ p in
  let chunk := (upper - lower) / n in
  loop_calls (snd (ParallelLoop p lower upper))
  = map (fun i => (Some i, (lower + Z.of_nat i * chunk,
                            lower + (Z.of_nat i + 1) * chunk)))
        (seq 0 (Z.to_nat (n - 1)))
    ++ [(None, (lower + (n - 1) * chunk, upper))].
Proof.
  intros Hn Hlo Hup Hrange Hbig n chunk.
  unfold ParallelLoop. rewrite (to_int_id _ Hrange). fold n.
  destruct (Z.geb_spec (upper - lower) (n * 2)) as [_|Hsmall]; [|lia].
  assert (HnS : numThreads_ (StartWorkers p) = n).
  { unfold StartWorkers. now destruct (workersStarted p). }
  rewrite HnS.
  assert (Hq : Z.quot (upper - lower) n = chunk)
    by (apply Z.quot_div_nonneg; lia).
  rewrite Hq.
  assert (Hchunk : 0 <= chunk) by (apply Z.div_pos; lia).
  assert (Hle : n * chunk <= upper - lower) by (apply Z.mul_div_le; lia).
  assert (Hm : Z.of_nat (Z.to_nat (n - 1)) = n - 1) by lia.
  destruct (dispatch_spec (Z.to_nat (n - 1)) 0 chunk lower (StartWorkers p) [])
    as [p' [Hd _]]; try assumption.
  { rewrite Hm. int_range; nia. }
  rewrite Hd, wait_all_spec, Hm. cbn [app Nat.add].
  rewrite !loop_calls_app, loop_calls_wait, app_nil_r.
  rewrite (loop_calls_process
             (fun i => (lower + Z.of_nat i * chunk,
                        lower + (Z.of_nat i + 1) * chunk))).
  reflexivity.
Qed.

(** X11.  In a parallelised [ParallelLoop] no call of [loop] is on an empty
    range: each worker's chunk holds [(upper - lower) / n] indices, which is
    at least two, and the calling thread's chunk holds at least as many and
    fewer than [n] more. *)
Theorem every_chunk_is_nonempty (p : ThreadPool) (lower upper : Z) :
  1 <= numThreads_ p <= 8 ->
  Int.in_int lower -> Int.in_int upper -> Int.in_int (upper - lower) ->
  2 * numThreads_ p <= upper - lower ->
  let n := numThreads_ p in
  let chunk := (upper - lower) / n in
  2 <= chunk /\
  Forall (fun c : option nat * (Z * Z) =>
            let size := snd (snd c) - fst (snd c) in
            match fst c with
            | Some _ => size = chunk
            | None => chunk <= size < chunk + n
            end)
         (loop_calls (snd (ParallelLoop p lower upper))).
Proof.
  intros Hn Hlo Hup Hrange Hbig n chunk.
  assert (Hchunk : 2 <= chunk) by (apply Z.div_le_lower_bound; lia).
  split; [exact Hchunk|].
  rewrite ParallelLoop_calls by (assumption || lia). fold n. fold chunk.
  apply Forall_app. split.
  - apply Forall_forall. intros c Hc. apply in_map_iff in Hc.
    destruct Hc as [i [<- _]]. cbn. lia.
  - constructor; [|constructor]. cbn.
    pose proof (Z.div_mod (upper - lower) n ltac:(lia)) as Hdm.
    pose proof (Z.mod_pos_bound (upper - lower) n ltac:(lia)) as Hmod.
    fold chunk in Hdm. nia.
Qed.

End PoolExtras.

(** A pool of four workers after loops on [0, 100), [0, 3) and [5, 50):
    worker 0 has been given two jobs and has done them. *)
Lemma no_job_is_pending_between_loops_witness :
  exists w,
    nth_error (ThreadPool.workers
                 (loops (ThreadPool.new 4) [(0, 100); (0, 3); (5, 50)])) 0
    = Some w /\
    ThreadPool.jobsDone w = 2 /\ ThreadPool.jobsTarget w = 2.
Proof.
  exists (ThreadPool.mkWorker 5 16 2 2).
  assert (Hw : nth_error (ThreadPool.workers
                            (loops (ThreadPool.new 4)
                                   [(0, 100); (0, 3); (5, 50)])) 0
               = Some (ThreadPool.mkWorker 5 16 2 2))
    by (vm_compute; reflexivity).
  split; [exact Hw|].
  assert (Hlen : Z.of_nat (length [(0, 100); (0, 3); (5, 50)]) <= Int.INT_MAX)
    by (vm_compute; discriminate).
  destruct (no_job_is_pending_between_loops 4 [(0, 100); (0, 3); (5, 50)] Hlen
              0%nat _ Hw) as [Hidle Hdone].
  split; [exact Hdone|]. rewrite <- Hidle. exact Hdone.
Defined.

(** A pool of eight workers on [0, 23): chunks of two indices for the seven
    workers dispatched, and nine for the calling thread. *)
Lemma every_chunk_is_nonempty_witness :
  2 <= (23 - 0) / ThreadPool.numThreads_ (ThreadPool.new 8) /\
  In (None, (14, 23))
     (ThreadPool.loop_calls
        (snd (ThreadPool.ParallelLoop (ThreadPool.new 8) 0 23))).
Proof.
  assert (Hn : 1 <= ThreadPool.numThreads_ (ThreadPool.new 8) <= 8)
    by (cbn; lia).
  assert (H0 : Int.in_int 0) by (int_range; lia).
  assert (H23 : Int.in_int 23) by (int_range; lia).
  assert (Hr : Int.in_int (23 - 0)) by (int_range; lia).
  assert (Hbig : 2 * ThreadPool.numThreads_ (ThreadPool.new 8) <= 23 - 0)
    by (cbn; lia).
  destruct (every_chunk_is_nonempty (ThreadPool.new 8) 0 23 Hn H0 H23 Hr Hbig)
    as [Hchunk _].
  split; [exact Hchunk|]. vm_compute. tauto.
Defined.

(** ** The worker thread *)

Section WorkerFacts.

Import LoopWorker.

Lemma run_cons (a : Action) (rest : list Action) (s s' : State)
    (ran : list (Z * Z)) :
  run (a :: rest) s = Some (s', ran) ->
  exists s1 ran1 ran2,
    step a s = Some (s1, ran1) /\ run rest s1 = Some (s', ran2) /\
    ran = ran1 ++ ran2.
Proof.
  cbn [run]. destruct (step a s) as [[s1 ran1]|]; [|discriminate].
  destruct (run rest s1) as [[s2 ran2]|] eqn:Hrest; [|discriminate].
  intros H. inversion H; subst. exists s1, ran1, ran2. auto.
Qed.

(** What one step does to the counters. *)
Lemma step_counters (a : Action) (s s1 : State) (ran1 : list (Z * Z)) :
  step a s = Some (s1, ran1) ->
  0 <= jobsDone s < Int.INT_MAX ->
  jobsDone s <= jobsTarget s <= jobsDone s + 1 ->
  jobsDone s1 <= jobsTarget s1 <= jobsDone s1 + 1 /\
  jobsDone s1 = jobsDone s + Z.of_nat (length ran1) /\
  (length ran1 <= 1)%nat.
Proof.
  intros Hstep Hmax Hinv. destruct a; cbn [step] in Hstep.
  - inversion Hstep; subst. cbn [jobsDone jobsTarget length Z.of_nat].
    rewrite to_int_id by (int_range; lia). lia.
  - destruct (running s && active s && negb (jobsTarget s <=? jobsDone s)) eqn:Hc;
      [|discriminate].
    inversion Hstep; subst. cbn [jobsDone jobsTarget length Z.of_nat].
    apply andb_prop in Hc. destruct Hc as [_ Hc].
    apply negb_true_iff, Z.leb_gt in Hc.
    rewrite to_int_id by (int_range; lia). lia.
  - inversion Hstep; subst. cbn [jobsDone jobsTarget length Z.of_nat]. lia.
  - destruct (running s && negb (active s)); [|discriminate].
    inversion Hstep; subst. cbn [jobsDone jobsTarget length Z.of_nat]. lia.
Qed.

Lemma run_counters (sched : list Action) : forall (s s' : State) ran,
  run sched s = Some (s', ran) ->
  0 <= jobsDone s ->
  jobsDone s + Z.of_nat (length sched) <= Int.INT_MAX ->
  jobsDone s <= jobsTarget s <= jobsDone s + 1 ->
  jobsDone s' <= jobsTarget s' <= jobsDone s' + 1 /\
  jobsDone s' = jobsDone s + Z.of_nat (length ran) /\
  (length ran <= length sched)%nat.
Proof.
  induction sched as [|a rest IH]; intros s s' ran Hrun H0 Hmax Hinv.
  - inversion Hrun; subst. cbn. lia.
  - apply run_cons in Hrun. destruct Hrun as [s1 [ran1 [ran2 [H1 [H2 ->]]]]].
    cbn [length] in Hmax.
    destruct (step_counters a s s1 ran1 H1 ltac:(lia) Hinv) as [Hinv1 [Hd1 Hl1]].
    destruct (IH s1 s' ran2 H2 ltac:(lia) ltac:(lia) Hinv1) as [Hinv' [Hd' Hl']].
    rewrite length_app. cbn [length]. lia.
Qed.

(** X12.  The job counters of a worker, whatever the caller and the thread
    do and in whatever order: [jobsDone <= jobsTarget <= jobsDone + 1], so at
    most one job is outstanding, and [jobsDone] is the number of times the
    thread has run [work_]. *)
Theorem worker_counters (sched : list Action) (s : State) (ran : list (Z * Z)) :
  Z.of_nat (length sched) <= Int.INT_MAX ->
  run sched created = Some (s, ran) ->
  jobsDone s <= jobsTarget s <= jobsDone s + 1 /\
  jobsDone s = Z.of_nat (length ran).
Proof.
  intros Hlen Hrun.
  destruct (run_counters sched created s ran Hrun) as [Hinv [Hd _]];
    cbn [created jobsDone jobsTarget]; try lia.
  split; [exact Hinv|]. cbn [created jobsDone] in Hd. lia.
Qed.

(** After a job was handed over, the thread can take one step and no more:
    it runs that job. *)
Lemma run_after_Process (rest : list Action) (s s' : State) (ran : list (Z * Z)) :
  forallb of_thread rest = true ->
  running s = true -> active s = true ->
  jobsTarget s = jobsDone s + 1 -> 0 <= jobsDone s < Int.INT_MAX ->
  run rest s = Some (s', ran) ->
  (rest = [] /\ s' = s /\ ran = []) \/
  (rest = [Work] /\ ran = [(start_ s, end_ s)] /\
   s' = mkState true (jobsDone s + 1) (jobsTarget s) (start_ s) (end_ s) true).
Proof.
  intros Hth Hrun Hact Htarget Hmax H.
  destruct rest as [|a rest]; [left; inversion H; auto|right].
  apply run_cons in H. destruct H as [s1 [ran1 [ran2 [H1 [H2 ->]]]]].
  cbn [forallb] in Hth. apply andb_prop in Hth. destruct Hth as [Ha Hrest].
  destruct a; try discriminate; cbn [step] in H1;
    rewrite Hrun, Hact in H1; cbn [andb negb] in H1; [|discriminate].
  replace (jobsTarget s <=? jobsDone s) with false in H1
    by (symmetry; apply Z.leb_gt; lia).
  cbn [negb] in H1. inversion H1; subst s1 ran1. clear H1.
  rewrite to_int_id in H2 by (int_range; lia).
  destruct rest as [|b rest].
  - inversion H2; subst. auto.
  - exfalso. apply run_cons in H2. destruct H2 as [s2 [r1 [r2 [H3 _]]]].
    cbn [forallb] in Hrest. apply andb_prop in Hrest. destruct Hrest as [Hb _].
    destruct b; try discriminate.
    cbn [step running active jobsTarget jobsDone] in H3.
    replace (jobsTarget s <=? jobsDone s + 1) with true in H3
      by (symmetry; apply Z.leb_le; lia).
    discriminate.
Qed.

(** X13.  The exact join.  A job handed to a live worker by [Process] is
    run by the thread at most once, with the bounds given; when
    [WaitForCompletion] can return it has been run exactly once, and until
    then not at all.  The worker is then as [ThreadPool.WaitForCompletion]
    after [ThreadPool.Process] says. *)
Theorem job_is_run_once_when_wait_returns
    (start end' : Z) (rest : list Action) (s s' : State) (ran : list (Z * Z)) :
  running s = true -> active s = true -> 0 <= jobsDone s < Int.INT_MAX ->
  forallb of_thread rest = true ->
  run (Process start end' :: rest) s = Some (s', ran) ->
  (WaitForCompletion_returns s' = true ->
   ran = [(start, end')] /\
   view s' = ThreadPool.WaitForCompletion (ThreadPool.Process (view s) start end')) /\
  (WaitForCompletion_returns s' = false -> ran = []).
Proof.
  intros Hrun Hact Hmax Hth H.
  apply run_cons in H. destruct H as [s1 [ran1 [ran2 [H1 [H2 ->]]]]].
  cbn [step] in H1. inversion H1; subst s1 ran1. clear H1.
  rewrite to_int_id in H2 by (int_range; lia).
  destruct (run_after_Process rest
              (mkState (active s) (jobsDone s) (jobsDone s + 1) start end'
                       (running s))
              s' ran2 Hth Hrun Hact eq_refl Hmax H2)
    as [[-> [-> ->]]|[-> [-> ->]]];
    unfold WaitForCompletion_returns; cbn [jobsDone jobsTarget start_ end_ app].
  - replace (jobsDone s <? jobsDone s + 1) with true
      by (symmetry; apply Z.ltb_lt; lia).
    split; [discriminate|reflexivity].
  - rewrite Z.ltb_irrefl. split; [|discriminate]. intros _.
    split; [reflexivity|].
    unfold view, ThreadPool.WaitForCompletion, ThreadPool.Process.
    cbn [ThreadPool.jobsDone ThreadPool.jobsTarget ThreadPool.start_
         ThreadPool.end_ jobsDone jobsTarget start_ end_].
    rewrite to_int_id by (int_range; lia).
    replace (jobsDone s <? jobsDone s + 1) with true
      by (symmetry; apply Z.ltb_lt; lia).
    reflexivity.
Qed.

(** X14.  [Process] does not queue.  Of two jobs handed over without the
    thread running in between, the first is dropped: the thread runs the
    second at most, and [WaitForCompletion] returns once that one is
    done. *)
Theorem second_job_replaces_first
    (a b c d : Z) (rest : list Action) (s s' : State) (ran : list (Z * Z)) :
  running s = true -> active s = true -> 0 <= jobsDone s < Int.INT_MAX ->
  forallb of_thread rest = true ->
  run (Process a b :: Process c d :: rest) s = Some (s', ran) ->
  (ran = [] \/ ran = [(c, d)]) /\
  (WaitForCompletion_returns s' = true -> ran = [(c, d)]) /\
  jobsTarget s' = jobsDone s + 1.
Proof.
  intros Hrun Hact Hmax Hth H.
  apply run_cons in H. destruct H as [s1 [ran1 [ran2 [H1 [H2 ->]]]]].
  cbn [step] in H1. inversion H1; subst s1 ran1. clear H1.
  apply run_cons in H2. destruct H2 as [s2 [ran3 [ran4 [H3 [H4 ->]]]]].
  cbn [step jobsDone active running] in H3. inversion H3; subst s2 ran3. clear H3.
  rewrite to_int_id in H4 by (int_range; lia).
  destruct (run_after_Process rest
              (mkState (active s) (jobsDone s) (jobsDone s + 1) c d (running s))
              s' ran4 Hth Hrun Hact eq_refl Hmax H4)
    as [[-> [-> ->]]|[-> [-> ->]]];
    unfold WaitForCompletion_returns; cbn [jobsDone jobsTarget start_ end_ app].
  - replace (jobsDone s <? jobsDone s + 1) with true
      by (symmetry; apply Z.ltb_lt; lia).
    repeat split; auto. discriminate.
  - repeat split; auto.
Qed.

Lemma run_stopped (sched : list Action) : forall (s s' : State) ran,
  active s = false ->
  run sched s = Some (s', ran) ->
  ran = [] /\ active s' = false /\
  (forallb (fun a => negb (is_Process a)) sched = true ->
   jobsDone s' = jobsDone s /\ jobsTarget s' = jobsTarget s).
Proof.
  induction sched as [|a rest IH]; intros s s' ran Hact H.
  - inversion H; subst. auto.
  - apply run_cons in H. destruct H as [s1 [ran1 [ran2 [H1 [H2 ->]]]]].
    assert (Hs1 : ran1 = [] /\ active s1 = false /\
                  (is_Process a = false ->
                   jobsDone s1 = jobsDone s /\ jobsTarget s1 = jobsTarget s)).
    { destruct a; cbn [step] in H1.
      - inversion H1; subst. cbn. repeat split; auto. discriminate.
      - rewrite Hact, andb_false_r in H1. discriminate.
      - inversion H1; subst. cbn. auto.
      - destruct (running s && negb (active s)); [|discriminate].
        inversion H1; subst. cbn. auto. }
    destruct Hs1 as [-> [Hact1 Hc1]].
    destruct (IH s1 s' ran2 Hact1 H2) as [-> [Hact' Hc']].
    repeat split; auto.
    + cbn [forallb] in H. apply andb_prop in H. destruct H as [Ha Hr].
      apply negb_true_iff in Ha.
      destruct (Hc1 Ha) as [E1 _]. destruct (Hc' Hr) as [E2 _]. congruence.
    + cbn [forallb] in H. apply andb_prop in H. destruct H as [Ha Hr].
      apply negb_true_iff in Ha.
      destruct (Hc1 Ha) as [_ E1]. destruct (Hc' Hr) as [_ E2]. congruence.
Qed.

(** X15.  Once the destructor has cleared [active] the thread runs no job,
    whatever is done afterwards.  A job still outstanding at that moment
    stays outstanding: unless another job is handed over,
    [WaitForCompletion] never becomes able to return. *)
Theorem no_job_runs_after_stop
    (rest : list Action) (s s' : State) (ran : list (Z * Z)) :
  run (Stop :: rest) s = Some (s', ran) ->
  ran = [] /\
  (jobsDone s < jobsTarget s ->
   forallb (fun a => negb (is_Process a)) rest = true ->
   WaitForCompletion_returns s' = false).
Proof.
  intros H. apply run_cons in H. destruct H as [s1 [ran1 [ran2 [H1 [H2 ->]]]]].
  cbn [step] in H1. inversion H1; subst s1 ran1. clear H1.
  destruct (run_stopped rest
              (mkState false (jobsDone s) (jobsTarget s) (start_ s) (end_ s)
                       (running s))
              s' ran2 eq_refl H2) as [-> [_ Hc]].
  split; [reflexivity|]. intros Hpending Hrest.
  destruct (Hc Hrest) as [Hd Ht]. cbn [jobsDone jobsTarget] in Hd, Ht.
  unfold WaitForCompletion_returns. rewrite Hd, Ht.
  apply negb_false_iff, Z.ltb_lt. exact Hpending.
Qed.

End WorkerFacts.

(** Two jobs handed over and run in turn: two jobs done, none outstanding. *)
Lemma worker_counters_witness :
  LoopWorker.run [LoopWorker.Process 0 4; LoopWorker.Work;
                  LoopWorker.Process 4 8; LoopWorker.Work] LoopWorker.created
  = Some (LoopWorker.mkState true 2 2 4 8 true, [(0, 4); (4, 8)]) /\
  LoopWorker.jobsDone (LoopWorker.mkState true 2 2 4 8 true) = 2.
Proof.
  assert (Hrun : LoopWorker.run [LoopWorker.Process 0 4; LoopWorker.Work;
                                 LoopWorker.Process 4 8; LoopWorker.Work]
                                LoopWorker.created
                 = Some (LoopWorker.mkState true 2 2 4 8 true, [(0, 4); (4, 8)]))
    by (vm_compute; reflexivity).
  split; [exact Hrun|].
  assert (Hlen : Z.of_nat (length [LoopWorker.Process 0 4; LoopWorker.Work;
                                   LoopWorker.Process 4 8; LoopWorker.Work])
                 <= Int.INT_MAX)
    by (vm_compute; discriminate).
  destruct (worker_counters _ _ _ Hlen Hrun) as [_ Hdone].
  exact Hdone.
Defined.

(** The job [3, 7) handed to a fresh worker, and run by its thread. *)
Lemma job_is_run_once_when_wait_returns_witness :
  LoopWorker.run [LoopWorker.Process 3 7; LoopWorker.Work] LoopWorker.created
  = Some (LoopWorker.mkState true 1 1 3 7 true, [(3, 7)]) /\
  LoopWorker.view (LoopWorker.mkState true 1 1 3 7 true)
  = ThreadPool.WaitForCompletion
      (ThreadPool.Process (LoopWorker.view LoopWorker.created) 3 7).
Proof.
  assert (Hrun : LoopWorker.run [LoopWorker.Process 3 7; LoopWorker.Work]
                                LoopWorker.created
                 = Some (LoopWorker.mkState true 1 1 3 7 true, [(3, 7)]))
    by (vm_compute; reflexivity).
  assert (Hmax : 0 <= LoopWorker.jobsDone LoopWorker.created < Int.INT_MAX)
    by (cbn; int_range; lia).
  destruct (job_is_run_once_when_wait_returns 3 7 [LoopWorker.Work]
              LoopWorker.created _ _ eq_refl eq_refl Hmax eq_refl Hrun)
    as [Hdone _].
  split; [exact Hrun|]. apply (Hdone eq_refl).
Defined.

(** The job [0, 4) replaced by [4, 8) before the thread ran: only the
    second is run. *)
Lemma second_job_replaces_first_witness :
  LoopWorker.run [LoopWorker.Process 0 4; LoopWorker.Process 4 8;
                  LoopWorker.Work] LoopWorker.created
  = Some (LoopWorker.mkState true 1 1 4 8 true, [(4, 8)]) /\
  LoopWorker.jobsTarget (LoopWorker.mkState true 1 1 4 8 true) = 1.
Proof.
  assert (Hrun : LoopWorker.run [LoopWorker.Process 0 4; LoopWorker.Process 4 8;
                                 LoopWorker.Work] LoopWorker.created
                 = Some (LoopWorker.mkState true 1 1 4 8 true, [(4, 8)]))
    by (vm_compute; reflexivity).
  assert (Hmax : 0 <= LoopWorker.jobsDone LoopWorker.created < Int.INT_MAX)
    by (cbn; int_range; lia).
  destruct (second_job_replaces_first 0 4 4 8 [LoopWorker.Work]
              LoopWorker.created _ _ eq_refl eq_refl Hmax eq_refl Hrun)
    as [_ [_ Htarget]].
  split; [exact Hrun|exact Htarget].
Defined.

(** A worker stopped with the job [3, 7) outstanding: the thread leaves,
    the job is not run, and the wait cannot return. *)
Lemma no_job_runs_after_stop_witness :
  LoopWorker.run [LoopWorker.Stop; LoopWorker.Exit]
                 (LoopWorker.mkState true 0 1 3 7 true)
  = Some (LoopWorker.mkState false 0 1 3 7 false, []) /\
  LoopWorker.WaitForCompletion_returns (LoopWorker.mkState false 0 1 3 7 false)
  = false.
Proof.
  assert (Hrun : LoopWorker.run [LoopWorker.Stop; LoopWorker.Exit]
                                (LoopWorker.mkState true 0 1 3 7 true)
                 = Some (LoopWorker.mkState false 0 1 3 7 false, []))
    by (vm_compute; reflexivity).
  destruct (no_job_runs_after_stop _ _ _ _ Hrun) as [_ Hwait].
  split; [exact Hrun|].
  apply Hwait; [cbn; lia|reflexivity].
Defined.

(** ** The groups of a draw call of points or lines *)

Section GroupFacts.

Import TransformUnit.

Variable ext : Collaborators.
Variable g : GPUState.
Variable uninit : Z -> nat -> VertexData.
Variable r : VertexReader.
Variable indices : option (list Z).
Variable indices_16bit : bool.

Lemma nth_update_other (A : Type) (l : list A) : forall (i j : nat) (x d : A),
  i <> j -> nth j (update l i x) d = nth j l d.
Proof.
  induction l as [|h t IH]; intros [|i] [|j] x d Hij; cbn; try reflexivity;
    try congruence.
  apply IH. congruence.
Qed.

(** The whole of one pass of the inner loop's body: what the slot holds
    afterwards, and what was called on the way. *)
Lemma AssembleVertex_full (vtx : Z) (i : nat) (d : VertexData) (s : St) :
  let index := vertex_index indices indices_16bit vtx i in
  exists v,
    AssembleVertex ext g r indices indices_16bit vtx i d s
    = (lit ext g v,
       mkSt index
            (trace s ++ EvGoto index :: EvReadPos
               :: (if reads_uv g r then [EvReadUV] else [])
               ++ (if hasNormal r then [EvReadNrm] else [])
               ++ (if hasColor0 r then [EvReadColor0] else [])
               ++ (if hasColor1 r then [EvReadColor0] else [])
               ++ (if isModeThrough g then [] else [EvLightingProcess v]))) /\
    assembled_from g r index d v.
Proof.
  intros index. unfold AssembleVertex, bind.
  rewrite ReadAttributes_spec. fold index. cbn [fst snd].
  unfold TransformVertex, Lighting_Process, ret, lit, assembled_from.
  destruct (isModeThrough g); cbn [negb].
  - eexists. split.
    + rewrite !app_nil_r. reflexivity.
    + cbn [set_drawpos texturecoords normal color0 color1 worldpos viewpos
           clippos drawpos worldnormal].
      repeat split.
  - rewrite vec3_eta. eexists. split.
    + cbn [cursor trace]. f_equal. f_equal. rewrite <- app_assoc. cbn [app].
      do 3 f_equal. rewrite <- !app_assoc. reflexivity.
    + destruct (hasNormal r);
        cbn [set_drawpos set_clippos set_viewpos set_worldpos set_worldnormal
             texturecoords normal color0 color1 worldpos viewpos clippos drawpos
             worldnormal];
        repeat split.
Qed.

(** The inner loop fills the slots it goes through, each with a vertex
    assembled in full from what the slot held, and calls the lighting step
    on each outside of through mode. *)
Lemma AssembleGroup_filled (vtx : Z) (n : nat) :
  forall (i : nat) (data : list VertexData) (s : St),
  (i + n <= length data)%nat ->
  let res := AssembleGroup ext g uninit r indices indices_16bit vtx n i data s in
  exists evs,
    trace (snd res) = trace s ++ evs /\
    forall j, (i <= j < i + n)%nat ->
      exists v,
        nth_error (fst res) j = Some (lit ext g v) /\
        assembled_from g r (vertex_index indices indices_16bit vtx j)
                       (nth j data (uninit vtx j)) v /\
        (isModeThrough g = false -> In (EvLightingProcess v) evs).
Proof.
  induction n as [|n IH]; intros i data s Hlen res.
  - exists []. split; [cbn; now rewrite app_nil_r|]. intros j Hj. lia.
  - unfold res. cbn [AssembleGroup]. unfold bind.
    destruct (AssembleVertex_full vtx i (nth i data (uninit vtx i)) s)
      as [v1 [H1 Ha1]].
    rewrite H1.
    match goal with
    | |- context [AssembleGroup _ _ _ _ _ _ _ _ _ ?data1 ?s1] =>
        pose proof (IH (S i) data1 s1) as IH1;
        pose proof (AssembleGroup_slots ext g uninit r indices indices_16bit
                      vtx n (S i) data1 s1) as Hslots
    end.
    rewrite update_length in IH1.
    destruct (IH1 ltac:(lia)) as [e2 [Ht2 Hfilled]]. clear IH1.
    destruct Hslots as [_ Hslots].
    eexists. split.
    + rewrite Ht2. cbn [trace]. rewrite <- app_assoc. reflexivity.
    + intros j Hj. destruct (Nat.eq_dec j i) as [->|Hne].
      * exists v1. split; [|split].
        -- rewrite Hslots by lia. apply update_hit. lia.
        -- exact Ha1.
        -- intros Hthrough. apply in_or_app. left. rewrite Hthrough.
           right. right. repeat (apply in_or_app; right). now left.
      * destruct (Hfilled j ltac:(lia)) as [v [Hn [Ha Hin]]].
        exists v. split; [exact Hn|]. split.
        -- rewrite nth_update_other in Ha by lia. exact Ha.
        -- intros Hthrough. apply in_or_app. right. auto.
Qed.

End GroupFacts.

Section DroppedGroups.

Import TransformUnit.

Variable K : GEConstants.
Variable ext : Collaborators.
Variable g : GPUState.
Variable uninit : Z -> nat -> VertexData.
Variable vertices : list Z.
Variable indices : option (list Z).
Variable prim_type : Z.
Variable vertex_count : Z.
Variable vertex_type : Z.

(** C10.  Points and lines are assembled in full and go nowhere.  With the
    four primitive constants distinct, a draw call of points or of lines
    returns after one pass of the outer loop per group, every vertex of every
    group read and, outside of through mode, lit, and no consumer called.
    The call is the outer loop run from vertex 0 on the decoder's reader, and
    each pass of that loop, from whatever state, does this: the inner loop
    fills slots 0 to [vtcs_per_prim - 1] of a fresh array of three, each with
    the attributes read from the vertex's record, the positions of the
    transform chain (in through mode the position as drawing coordinate) and,
    outside of through mode, the result of [Lighting::Process] called on that
    vertex; the slots beyond stay as constructed; no consumer is called on
    the array, and the loop goes on from the state the inner loop left, the
    array dropped.  Whatever the primitive type and however far a draw call
    gets, [ProcessTriangle] is called for triangles only and [ProcessQuad]
    for rectangles only. *)
Theorem points_and_lines_are_dropped :
  NoDup [GE_PRIM_POINTS K; GE_PRIM_LINES K; GE_PRIM_TRIANGLES K;
         GE_PRIM_RECTANGLES K] ->
  prim_type = GE_PRIM_POINTS K \/ prim_type = GE_PRIM_LINES K ->
  vertex_count <= Int.INT_MAX - 3 ->
  let per := vertices_per_prim K prim_type in
  let n := Z.to_nat (groups vertex_count per) in
  let bounds := index_bounds ext indices vertex_count vertex_type in
  let r := DecodeVerts ext vertices vertex_type (fst bounds) (snd bounds) in
  let indices_16bit :=
    Z.land vertex_type (GE_VTYPE_IDX_MASK K) =? GE_VTYPE_IDX_16BIT K in
  let loop := PrimLoop K ext g uninit r indices indices_16bit prim_type
                       vertex_count per in
  (per = 1 \/ per = 2) /\
  (forall fuel, (n <= fuel)%nat ->
   exists s,
     SubmitPrimitive K ext g uninit fuel vertices indices prim_type vertex_count
                     vertex_type = Returned s /\
     count is_ReadPos (trace s) = (n * Z.to_nat per)%nat /\
     count is_Lighting (trace s)
     = (if isModeThrough g then 0 else n * Z.to_nat per)%nat /\
     count is_Process (trace s) = 0%nat) /\
  (forall fuel,
     SubmitPrimitive K ext g uninit fuel vertices indices prim_type vertex_count
                     vertex_type
     = loop fuel 0 (mkSt 0 [EvDecodeVerts (fst bounds) (snd bounds)])) /\
  (forall fuel vtx s, vtx < vertex_count ->
     let res := AssembleGroup ext g uninit r indices indices_16bit vtx
                  (Z.to_nat per) 0
                  [uninit vtx 0%nat; uninit vtx 1%nat; uninit vtx 2%nat] s in
     loop (S fuel) vtx s = loop fuel (Int.to_int (vtx + per)) (snd res) /\
     length (fst res) = 3%nat /\
     (exists evs,
        trace (snd res) = trace s ++ evs /\
        count is_Process evs = 0%nat /\
        forall i, (i < Z.to_nat per)%nat ->
          exists v,
            nth_error (fst res) i = Some (lit ext g v) /\
            assembled_from g r (vertex_index indices indices_16bit vtx i)
                           (uninit vtx i) v /\
            (isModeThrough g = false -> In (EvLightingProcess v) evs)) /\
     (forall i, (Z.to_nat per <= i < 3)%nat ->
        nth_error (fst res) i = Some (uninit vtx i))) /\
  (forall fuel prim_type',
     Forall (consumer_matches K prim_type')
       (trace (state_of (SubmitPrimitive K ext g uninit fuel vertices indices
                                         prim_type' vertex_count vertex_type)))).
Proof.
  intros Hdistinct Hprim Hmax per n bounds r indices_16bit loop.
  assert (Hper : per = 1 \/ per = 2).
  { unfold per, vertices_per_prim.
    destruct (Z.eqb_spec prim_type (GE_PRIM_POINTS K)); [now left|].
    destruct (Z.eqb_spec prim_type (GE_PRIM_LINES K)); [now right|].
    tauto. }
  assert (Hnot : (prim_type =? GE_PRIM_TRIANGLES K) = false
                 /\ (prim_type =? GE_PRIM_RECTANGLES K) = false).
  { destruct (distinct_primitives uninit 0 _ _ _ _ Hdistinct)
      as [Hpt [Hpr [Hlt Hlr]]].
    split; apply Z.eqb_neq; destruct Hprim as [H|H]; rewrite H; assumption. }
  destruct Hnot as [Htri Hrect].
  split; [exact Hper|]. split; [|split; [|split]].
  - intros fuel Hfuel. rewrite SubmitPrimitive_unfold. fold per bounds.
    destruct (PrimLoop_returns K ext g uninit r indices indices_16bit
                prim_type vertex_count per fuel 0
                (mkSt 0 [EvDecodeVerts (fst bounds) (snd bounds)]))
      as [s [evs [Hret [Htr [Hp [Hl Hq]]]]]].
    + lia.
    + assumption.
    + lia.
    + now rewrite Z.sub_0_r.
    + rewrite Z.sub_0_r in Hp, Hl, Hq. fold n in Hp, Hl, Hq.
      rewrite Htri, Hrect in Hq. cbn [orb] in Hq.
      exists s. split; [exact Hret|]. rewrite Htr. cbn [trace].
      rewrite !count_app, Hp, Hl, Hq. repeat split.
  - intros fuel. apply SubmitPrimitive_unfold.
  - intros fuel vtx s Hlt res.
    assert (Hnat : Z.to_nat per = 1%nat \/ Z.to_nat per = 2%nat)
      by (destruct Hper as [->| ->]; [left|right]; reflexivity).
    split; [|split; [|split]].
    + unfold loop. cbn [PrimLoop]. apply Z.ltb_lt in Hlt. rewrite Hlt.
      fold res. destruct res as [data' s1]. cbn [snd].
      unfold Dispatch. rewrite Htri, Hrect. reflexivity.
    + apply (AssembleGroup_slots ext g uninit r indices indices_16bit vtx
               (Z.to_nat per) 0
               [uninit vtx 0%nat; uninit vtx 1%nat; uninit vtx 2%nat] s).
    + destruct (AssembleGroup_filled ext g uninit r indices indices_16bit vtx
                  (Z.to_nat per) 0
                  [uninit vtx 0%nat; uninit vtx 1%nat; uninit vtx 2%nat] s)
        as [evs [Hevs Hfilled]]; [cbn [length]; lia|].
      destruct (AssembleGroup_events ext g uninit r indices indices_16bit vtx
                  (Z.to_nat per) 0
                  [uninit vtx 0%nat; uninit vtx 1%nat; uninit vtx 2%nat] s)
        as [evs' [Hevs' [_ [_ Hq]]]].
      assert (Heq : evs = evs').
      { apply (app_inv_head (trace s)). congruence. }
      subst evs'. fold res in Hevs.
      exists evs. split; [exact Hevs|]. split; [exact Hq|].
      intros i Hi. destruct (Hfilled i ltac:(lia)) as [v [Hn [Ha Hin]]].
      exists v. split; [exact Hn|]. split; [|exact Hin].
      destruct i as [|[|[|i]]]; cbn [nth] in Ha; try exact Ha. lia.
    + intros i Hi.
      destruct (AssembleGroup_slots ext g uninit r indices indices_16bit vtx
                  (Z.to_nat per) 0
                  [uninit vtx 0%nat; uninit vtx 1%nat; uninit vtx 2%nat] s)
        as [_ Hslots].
      fold res in Hslots. rewrite Hslots by lia.
      destruct i as [|[|[|i]]]; try reflexivity. lia.
  - intros fuel prim_type'.
    unfold SubmitPrimitive.
    destruct (index_bounds ext indices vertex_count vertex_type) as [lower upper].
    apply PrimLoop_consumers. repeat constructor.
Qed.

End DroppedGroups.

(** Three vertices drawn as lines on the PSP's constants: two groups, four
    vertices read and lit, no consumer called.  The second group starts at
    vertex 2; its second slot is filled from record 3, one past the last
    vertex, whose position (13, 20.5, 0) comes out at drawing coordinate
    (12, 19), and its third slot is as constructed. *)
Lemma points_and_lines_are_dropped_witness :
  (exists s,
     TransformUnit.SubmitPrimitive psp_constants (example_ext true false)
       (example_state false) example_uninit 2 [] None 1 3 0 = Returned s /\
     count is_ReadPos (trace s) = 4%nat /\
     count is_Lighting (trace s) = 4%nat /\
     count is_Process (trace s) = 0%nat) /\
  (let data :=
     fst (TransformUnit.AssembleGroup (example_ext true false)
            (example_state false) example_uninit (example_reader true false)
            None false 2 2 0 [example_vertex; example_vertex; example_vertex]
            (mkSt 0 [])) in
   (exists v, nth_error data 1 = Some v /\ drawpos v = mkDrawing 12 19) /\
   nth_error data 2 = Some example_vertex).
Proof.
  destruct (points_and_lines_are_dropped psp_constants (example_ext true false)
              (example_state false) example_uninit [] None 1 3 0)
    as [_ [Hrun [_ [Hgroup _]]]].
  - repeat constructor; cbn; intuition discriminate.
  - right. reflexivity.
  - unfold Int.INT_MAX. lia.
  - split; [apply (Hrun 2%nat); vm_compute; lia|].
    destruct (Hgroup 0%nat 2 (mkSt 0 []) ltac:(lia))
      as [_ [_ [[evs [_ [_ Hfilled]]] Hrest]]].
    split.
    + destruct (Hfilled 1%nat ltac:(vm_compute; lia)) as [v [Hn [Ha _]]].
      exists v. split; [exact Hn|].
      destruct Ha as [_ [_ [_ [_ [Hw [Hv [Hc [Hd _]]]]]]]].
      rewrite Hd, Hc, Hv, Hw. vm_compute. reflexivity.
    + apply (Hrest 2%nat). vm_compute. lia.
Defined.
